(** * Gesture Dash: the frame loop, the physics and the gesture classifier

  A shallow embedding of [types.ts], [services/vision.ts],
  [services/gemini.ts] and the [RunnerGame] component, followed by the
  properties of the frame step.

  Numbers.  A JavaScript [number] that holds a coordinate, a velocity or a
  speed is modelled as an exact rational ([Q]); one that only ever holds an
  integer (the score, the frame counter) as [Z]; an array length as [nat].
  The comparisons of the source are the boolean comparisons [Qltb] and
  [Qgtb] below.  Rounding of IEEE doubles is not part of this model; the
  module [Binary64] replays the vertical motion of the player on binary64
  numbers. *)

From Stdlib Require Import QArith ZArith List String Bool Lia Lqa.
From Stdlib Require Import DecimalString Floats Sorted DecimalZ DecimalPos.
Import ListNotations.

Set Warnings "-inexact-float".

Open Scope Q_scope.

(** ** Comparisons of the source, as booleans *)

(** [a < b] of the source. *)
Definition Qltb (a b : Q) : bool :=
(Qnum a * QDen b <? Qnum b * QDen a)%Z.

(** [a > b] of the source. *)
Definition Qgtb (a b : Q) : bool := Qltb b a.

(** The option monad: a [None] is the [TypeError] that reading a property of
  [undefined] raises. *)
Definition obind {A B : Type} (m : option A) (k : A -> option B) : option B :=
match m with
| Some a => k a
| None => None
end.

Notation "x <- m ;; k" := (obind m (fun x => k))
(at level 61, m at next level, right associativity).

(** ** types.ts *)
Module Types.

Inductive GameState : Type := START | PLAYING | GAME_OVER.

Inductive GestureType : Type := NONE | OPEN_PALM | CLOSED_FIST | THUMBS_UP.

Record VisionState : Type := {
  handCount : nat;
  gesture : GestureType;
  isTurbo : bool
}.

Record Entity : Type := {
  x : Q;
  y : Q;
  width : Q;
  height : Q;
  color : string
}.

(** [Player extends Entity]. *)
Record Player : Type := {
  playerEntity :> Entity;
  vy : Q;
  isJumping : bool;
  isDucking : bool
}.

Inductive ObstacleType : Type := CACTUS | BIRD.

(** [Obstacle extends Entity]. *)
Record Obstacle : Type := {
  obstacleEntity :> Entity;
  type : ObstacleType
}.

Definition GameState_eqb (a b : GameState) : bool :=
  match a, b with
  | START, START | PLAYING, PLAYING | GAME_OVER, GAME_OVER => true
  | _, _ => false
  end.

Definition GestureType_eqb (a b : GestureType) : bool :=
  match a, b with
  | NONE, NONE | OPEN_PALM, OPEN_PALM
  | CLOSED_FIST, CLOSED_FIST | THUMBS_UP, THUMBS_UP => true
  | _, _ => false
  end.

End Types.

(** ** services/vision.ts *)
Module Vision.
Import Types.

(** A landmark of MediaPipe; [detectGesture] reads only [y]. *)
Record NormalizedLandmark : Type := {
  x : Q;
  y : Q;
  z : Q
}.

(** [isExtended]: the tip is higher than the PIP joint (the y axis points
    down). *)
Definition isExtended (tip pip : NormalizedLandmark) : bool :=
  Qltb (y tip) (y pip).

(** [detectGesture].  [landmarks[i]] of a missing index is [undefined] and
    reading its [y] throws: every one of the ten indices is read on every
    call, so the call throws as soon as one of them is missing. *)
Definition detectGesture (landmarks : list NormalizedLandmark)
  : option GestureType :=
  thumbTip <- nth_error landmarks 4 ;;
  thumbIp <- nth_error landmarks 3 ;;
  indexTip <- nth_error landmarks 8 ;;
  indexPip <- nth_error landmarks 6 ;;
  middleTip <- nth_error landmarks 12 ;;
  middlePip <- nth_error landmarks 10 ;;
  ringTip <- nth_error landmarks 16 ;;
  ringPip <- nth_error landmarks 14 ;;
  pinkyTip <- nth_error landmarks 20 ;;
  pinkyPip <- nth_error landmarks 18 ;;
  let indexOpen := isExtended indexTip indexPip in
  let middleOpen := isExtended middleTip middlePip in
  let ringOpen := isExtended ringTip ringPip in
  let pinkyOpen := isExtended pinkyTip pinkyPip in
  let extendedCount :=
    List.length (filter (fun b : bool => b)
              [indexOpen; middleOpen; ringOpen; pinkyOpen]) in
  if Qltb (y thumbTip) (y thumbIp) && (extendedCount =? 0)%nat then
    Some THUMBS_UP
  else if (3 <=? extendedCount)%nat then
    Some OPEN_PALM
  else if (extendedCount <=? 1)%nat then
    Some CLOSED_FIST
  else
    Some NONE.

(** The [for ... of hands] loop of [processVideoFrame]: the gesture of the
    first hand that is not [NONE]; the hands after it are not classified. *)
Fixpoint primaryGesture (hands : list (list NormalizedLandmark))
  : option GestureType :=
  match hands with
  | [] => Some NONE
  | landmarks :: rest =>
      g <- detectGesture landmarks ;;
      if negb (GestureType_eqb g NONE) then Some g else primaryGesture rest
  end.

(** [processVideoFrame].  The argument is [results.landmarks] of the
    detector, or [None] when [!handLandmarker || !video.videoWidth]. *)
Definition processVideoFrame
    (detected : option (list (list NormalizedLandmark)))
  : option VisionState :=
  match detected with
  | None => Some {| handCount := 0; gesture := NONE; isTurbo := false |}
  | Some hands =>
      let handCount := List.length hands in
      g <- primaryGesture hands ;;
      Some {| handCount := handCount;
              gesture := g;
              isTurbo := (2 <=? handCount)%nat |}
  end.

End Vision.

(** ** services/gemini.ts *)
Module Gemini.

(** What happens inside [generateGameOverMessage]: no API key, a response
    of the model (whose [text] may be undefined), or an exception. *)
Inductive Outcome : Type :=
| NoApiKey
| Response (text : option string)
| ApiError.

(** A template literal prints an integer in decimal. *)
Definition showScore (score : Z) : string :=
  NilZero.string_of_int (Z.to_int score).

Definition fallbackMessage (score : Z) : string :=
  ("Game Over! Score: " ++ showScore score)%string.

Definition generateGameOverMessage (score : Z) (o : Outcome) : string :=
  match o with
  | NoApiKey =>
      ("Game Over! You scored " ++ showScore score
         ++ ". (Add API Key for AI roasts)")%string
  | Response (Some (String c s)) => String c s
  | Response _ => fallbackMessage score
  | ApiError => fallbackMessage score
  end.

End Gemini.


(** ** components/RunnerGame.tsx *)
Module RunnerGame.
Import Types.

(** Game constants. *)
Definition GRAVITY : Q := 0.6.
Definition JUMP_FORCE : Q := -12.
Definition GROUND_Y : Q := 350.
Definition DUCK_HEIGHT : Q := 30.
Definition NORMAL_HEIGHT : Q := 60.
Definition CANVAS_WIDTH : Q := 800.
Definition CANVAS_HEIGHT : Q := 450.
Definition BASE_SPEED : Q := 6.
Definition TURBO_SPEED_MULTIPLIER : Q := 1.8.

(** The object held by [gameRef.current]. *)
Record Game : Type := {
  player : Player;
  obstacles : list Obstacle;
  frameCount : Z;
  currentSpeed : Q;
  score : Z
}.

(** The component: its React state ([gameState], [score], here
    [scoreState], [visionState], [aiMessage]), the game reference, and the
    calls of [handleGameOver] that are suspended at their [await], each with
    its [finalScore], oldest first.  A state update made during a frame is in
    place when the next frame runs. *)
Record Component : Type := {
  gameState : GameState;
  scoreState : Z;
  visionState : VisionState;
  aiMessage : string;
  gameRef : Game;
  inFlight : list Z
}.

Definition initialPlayer : Player :=
  {| playerEntity :=
       {| x := 50; y := GROUND_Y - NORMAL_HEIGHT;
          width := 40; height := NORMAL_HEIGHT; color := "#00ffcc" |};
     vy := 0; isJumping := false; isDucking := false |}.

Definition initialGame : Game :=
  {| player := initialPlayer; obstacles := []; frameCount := 0;
     currentSpeed := BASE_SPEED; score := 0 |}.

Definition initialComponent : Component :=
  {| gameState := START;
     scoreState := 0;
     visionState := {| handCount := 0; gesture := NONE; isTurbo := false |};
     aiMessage := EmptyString;
     gameRef := initialGame;
     inFlight := [] |}.

(** Assignments to one field of an entity. *)
Definition setX (e : Entity) (v : Q) : Entity :=
  {| x := v; y := y e; width := width e; height := height e;
     color := color e |}.

Definition setY (e : Entity) (v : Q) : Entity :=
  {| x := x e; y := v; width := width e; height := height e;
     color := color e |}.

Definition setHeight (e : Entity) (v : Q) : Entity :=
  {| x := x e; y := y e; width := width e; height := v;
     color := color e |}.

(** The values [Math.random()] returns to [spawnObstacle] in one frame: to
    its first call and to its second. *)
Record Random : Type := {
  spawnRoll : Q;
  typeRoll : Q
}.

(** [spawnObstacle], on the obstacle array. *)
Definition spawnObstacle (currentSpeed : Q) (rnd : Random)
    (obstacles : list Obstacle) : list Obstacle :=
  let minGap := 250 + currentSpeed * 10 in
  let gapFree :=
    match nth_error obstacles (List.length obstacles - 1) with
    | None => true
    | Some lastObstacle => Qgtb (CANVAS_WIDTH - x lastObstacle) minGap
    end in
  if gapFree then
    if Qltb (spawnRoll rnd) 0.02 then
      let type := if Qgtb (typeRoll rnd) 0.6 then BIRD else CACTUS in
      obstacles ++
        [ {| obstacleEntity :=
               {| x := CANVAS_WIDTH;
                  y := match type with
                       | BIRD => GROUND_Y - 90
                       | CACTUS => GROUND_Y - 40
                       end;
                  width := match type with BIRD => 40 | CACTUS => 30 end;
                  height := match type with BIRD => 30 | CACTUS => 40 end;
                  color := match type with
                           | BIRD => "#ff4444"
                           | CACTUS => "#ffaa00"
                           end |};
             type := type |} ]
    else obstacles
  else obstacles.

(** [resetGame]: a fresh game object, [setScore(0)], [setAiMessage('')],
    [setGameState(PLAYING)].  The suspended calls stay suspended. *)
Definition resetGame (c : Component) : Component :=
  {| gameState := PLAYING;
     scoreState := 0;
     visionState := visionState c;
     aiMessage := EmptyString;
     gameRef := initialGame;
     inFlight := inFlight c |}.

(** The jump of [tick]. *)
Definition jump (vState : VisionState) (p : Player) : Player :=
  if GestureType_eqb (gesture vState) OPEN_PALM && negb (isJumping p) then
    {| playerEntity := p; vy := JUMP_FORCE;
       isJumping := true; isDucking := false |}
  else p.

(** The branch of [tick] taken on [CLOSED_FIST]. *)
Definition duck (p : Player) : Player :=
  {| playerEntity := setY (setHeight p DUCK_HEIGHT) (GROUND_Y - DUCK_HEIGHT);
     vy := if isJumping p then vy p + 2 else vy p;
     isJumping := isJumping p;
     isDucking := true |}.

(** The [else] branch: stand up if ducking. *)
Definition standUp (p : Player) : Player :=
  if isDucking p then
    {| playerEntity :=
         setY (setHeight p NORMAL_HEIGHT) (GROUND_Y - NORMAL_HEIGHT);
       vy := vy p;
       isJumping := isJumping p;
       isDucking := false |}
  else p.

(** Player control of a [PLAYING] frame: jump, then duck or stand up. *)
Definition playerControl (vState : VisionState) (p : Player) : Player :=
  let p1 := jump vState p in
  if GestureType_eqb (gesture vState) CLOSED_FIST then duck p1
  else standUp p1.

(** The inside of step 1 of [tick], once [processVideoFrame] has returned
    [vState]: [setVisionState] and the inputs by game state.  The [gameState]
    tested is the one the callback was created with. *)
Definition handleInputs (c : Component) (vState : VisionState)
  : Component :=
  match gameState c with
  | START =>
      {| gameState :=
           if GestureType_eqb (gesture vState) OPEN_PALM then PLAYING
           else gameState c;
         scoreState := scoreState c;
         visionState := vState;
         aiMessage := aiMessage c;
         gameRef := gameRef c;
         inFlight := inFlight c |}
  | GAME_OVER =>
      if GestureType_eqb (gesture vState) THUMBS_UP then
        resetGame
          {| gameState := gameState c; scoreState := scoreState c;
             visionState := vState; aiMessage := aiMessage c;
             gameRef := gameRef c; inFlight := inFlight c |}
      else
        {| gameState := gameState c; scoreState := scoreState c;
           visionState := vState; aiMessage := aiMessage c;
           gameRef := gameRef c; inFlight := inFlight c |}
  | PLAYING =>
      {| gameState := gameState c;
         scoreState := scoreState c;
         visionState := vState;
         aiMessage := aiMessage c;
         gameRef :=
           {| player := playerControl vState (player (gameRef c));
              obstacles := obstacles (gameRef c);
              frameCount := frameCount (gameRef c);
              currentSpeed :=
                if isTurbo vState then BASE_SPEED * TURBO_SPEED_MULTIPLIER
                else BASE_SPEED;
              score := score (gameRef c) |};
         inFlight := inFlight c |}
  end.

(** Gravity. *)
Definition gravity (p : Player) : Player :=
  if Qltb (y p) (GROUND_Y - height p) || Qltb (vy p) 0 then
    {| playerEntity := setY p (y p + vy p);
       vy := vy p + GRAVITY;
       isJumping := true;
       isDucking := isDucking p |}
  else
    {| playerEntity := setY p (GROUND_Y - height p);
       vy := 0;
       isJumping := false;
       isDucking := isDucking p |}.

(** [obs.x -= game.currentSpeed]. *)
Definition moveObstacle (speed : Q) (obs : Obstacle) : Obstacle :=
  {| obstacleEntity := setX obs (x obs - speed); type := type obs |}.

(** The test of the removal: [obs.x + obs.width < 0]. *)
Definition offScreen (obs : Entity) : bool :=
  Qltb (x obs + width obs) 0.

(** The AABB test of the loop. *)
Definition collides (p obs : Entity) : bool :=
  Qltb (x p) (x obs + width obs)
  && Qgtb (x p + width p) (x obs)
  && Qltb (y p) (y obs + height obs)
  && Qgtb (y p + height p) (y obs).

(** What the obstacle loop has done so far: the obstacles it keeps (those
    visited and not spliced out), [game.score], the last [setScore], and the
    arguments of the calls of [handleGameOver], in call order. *)
Record Pass : Type := {
  kept : list Obstacle;
  passScore : Z;
  passShown : Z;
  gameOvers : list Z
}.

(** One iteration of the loop, on [game.obstacles[i]]. *)
Definition visit (p : Player) (speed : Q) (obs0 : Obstacle) (st : Pass)
  : Pass :=
  let obs := moveObstacle speed obs0 in
  let st1 :=
    if offScreen obs then
      {| kept := kept st;
         passScore := (passScore st + 10)%Z;
         passShown := (passScore st + 10)%Z;
         gameOvers := gameOvers st |}
    else
      {| kept := obs :: kept st;
         passScore := passScore st;
         passShown := passShown st;
         gameOvers := gameOvers st |} in
  if collides p obs then
    {| kept := kept st1;
       passScore := passScore st1;
       passShown := passShown st1;
       gameOvers := gameOvers st1 ++ [passScore st1] |}
  else st1.

(** The loop [for (i = length - 1; i >= 0; i--)]: the last obstacle is
    visited first, which is the order of [fold_right]. *)
Definition moveAndCollide (p : Player) (speed : Q)
    (obstacles : list Obstacle) (score shown : Z) : Pass :=
  fold_right (visit p speed)
    {| kept := []; passScore := score; passShown := shown; gameOvers := [] |}
    obstacles.

(** Step 2 of [tick]: physics, spawn, move and collide, progression.  Each
    call of [handleGameOver] sets the phase and suspends at its [await]. *)
Definition updatePhysics (c : Component) (rnd : Random) : Component :=
  let game := gameRef c in
  let p := gravity (player game) in
  let spawned := spawnObstacle (currentSpeed game) rnd (obstacles game) in
  let pass :=
    moveAndCollide p (currentSpeed game) spawned (score game)
      (scoreState c) in
  {| gameState :=
       match gameOvers pass with
       | [] => gameState c
       | _ :: _ => GAME_OVER
       end;
     scoreState := passShown pass;
     visionState := visionState c;
     aiMessage := aiMessage c;
     gameRef :=
       {| player := p;
          obstacles := kept pass;
          frameCount := (frameCount game + 1)%Z;
          currentSpeed := currentSpeed game;
          score := passScore pass |};
     inFlight := inFlight c ++ gameOvers pass |}.

(** Step 1 of [tick], [Process Vision].  [video] is the Vision State that
    [processVideoFrame] returned, or [None] when the video element is not
    ready ([readyState] is not 4): the whole step is then skipped. *)
Definition processVision (c : Component) (video : option VisionState)
  : Component :=
  match video with
  | Some vState => handleInputs c vState
  | None => c
  end.

(** [tick], with the canvas mounted: step 1, then the early return of a
    callback that was not created in [PLAYING], then step 2. *)
Definition tick (c : Component) (video : option VisionState) (rnd : Random)
  : Component :=
  let c1 := processVision c video in
  if negb (GameState_eqb (gameState c) PLAYING) then c1
  else updatePhysics c1 rnd.

(** The continuation of a suspended [handleGameOver]: the [i]-th pending
    call receives its message and does [setAiMessage(msg)]. *)
Definition commentaryArrives (c : Component) (i : nat) (o : Gemini.Outcome)
  : Component :=
  match nth_error (inFlight c) i with
  | None => c
  | Some finalScore =>
      {| gameState := gameState c;
         scoreState := scoreState c;
         visionState := visionState c;
         aiMessage := Gemini.generateGameOverMessage finalScore o;
         gameRef := gameRef c;
         inFlight := firstn i (inFlight c) ++ skipn (S i) (inFlight c) |}
  end.

(** What the browser runs: a display frame, or the completion of a pending
    commentary request. *)
Inductive Event : Type :=
| Frame (video : option VisionState) (rnd : Random)
| Commentary (i : nat) (o : Gemini.Outcome).

Definition step (c : Component) (e : Event) : Component :=
  match e with
  | Frame video rnd => tick c video rnd
  | Commentary i o => commentaryArrives c i o
  end.

Definition run (c : Component) (events : list Event) : Component :=
  fold_left step events c.

(** The states the component can be in. *)
Inductive reachable : Component -> Prop :=
| reachable_initial : reachable initialComponent
| reachable_step c e : reachable c -> reachable (step c e).

(** A display frame from what the detector saw: [None] when the video is
    not ready, [Some detected] otherwise; the result is [None] when
    [detectGesture] throws. *)
Definition frame (c : Component)
    (camera : option (option (list (list Vision.NormalizedLandmark))))
    (rnd : Random) : option Component :=
  match camera with
  | None => Some (tick c None rnd)
  | Some detected =>
      vState <- Vision.processVideoFrame detected ;;
      Some (tick c (Some vState) rnd)
  end.

End RunnerGame.


(** ** The vocabulary of the specification *)
Module Spec.
Import Types RunnerGame.

(** The vertical coordinate of landmark [i] of a hand. *)
Definition landmarkY (hand : list Vision.NormalizedLandmark) (i : nat) : Q :=
  Vision.y (nth i hand {| Vision.x := 0; Vision.y := 0; Vision.z := 0 |}).

(** The thumb tip is above the thumb interphalangeal joint. *)
Definition thumbUp (hand : list Vision.NormalizedLandmark) : Prop :=
  landmarkY hand 4 < landmarkY hand 3.

(** One for a finger whose tip is above its PIP joint, zero otherwise. *)
Definition extended (hand : list Vision.NormalizedLandmark)
    (tip pip : nat) : nat :=
  if Qlt_le_dec (landmarkY hand tip) (landmarkY hand pip) then 1%nat
  else 0%nat.

(** The count of extended fingers among index, middle, ring and pinky. *)
Definition extendedCount (hand : list Vision.NormalizedLandmark) : nat :=
  (extended hand 8 6 + extended hand 12 10
   + extended hand 16 14 + extended hand 20 18)%nat.

(** The feet of the player: the lower edge of its rectangle. *)
Definition feet (p : Entity) : Q := y p + height p.

(** The obstacles of a [PLAYING] frame after the spawn and the move, before
    any removal, for the game object that step 1 leaves. *)
Definition movedObstacles (game : Game) (rnd : Random) : list Obstacle :=
  map (moveObstacle (currentSpeed game))
    (spawnObstacle (currentSpeed game) rnd (obstacles game)).

(** An obstacle that is still in the field. *)
Definition live (obs : Obstacle) : bool := negb (offScreen obs).

(** The frame that resets the game: a fresh reading of [THUMBS_UP] in
    [GAME_OVER]. *)
Definition isReset (c : Component) (e : Event) : bool :=
  match e with
  | Frame (Some vState) _ =>
      GameState_eqb (gameState c) GAME_OVER
      && GestureType_eqb (gesture vState) THUMBS_UP
  | _ => false
  end.

(** The obstacles that an event removes from the sequence: the moved
    obstacles of a [PLAYING] frame that left the field. *)
Definition removedBy (c : Component) (e : Event) : nat :=
  match e with
  | Frame video rnd =>
      if GameState_eqb (gameState c) PLAYING then
        List.length
          (filter (fun o : Obstacle => offScreen o)
             (movedObstacles (gameRef (processVision c video)) rnd))
      else 0%nat
  | Commentary _ _ => 0%nat
  end.

(** A run without a reset. *)
Fixpoint session (c : Component) (events : list Event) : bool :=
  match events with
  | [] => true
  | e :: rest => negb (isReset c e) && session (step c e) rest
  end.

(** The obstacles removed along a run. *)
Fixpoint removedAlong (c : Component) (events : list Event) : nat :=
  match events with
  | [] => 0%nat
  | e :: rest => (removedBy c e + removedAlong (step c e) rest)%nat
  end.

(** The scroll speed after each event of a run. *)
Fixpoint speeds (c : Component) (events : list Event) : list Q :=
  match events with
  | [] => []
  | e :: rest => currentSpeed (gameRef (step c e)) :: speeds (step c e) rest
  end.

(** What the reachable player states satisfy between frames: a player on
    the ground or moving up has its feet on or above the ground line. *)
Definition grounded (p : Player) : Prop :=
  (vy p < 0 -> feet p <= GROUND_Y)
  /\ (isJumping p = false -> feet p <= GROUND_Y).

End Spec.

(** ** Inputs of the scenarios *)
Module Scenario.
Import Types RunnerGame.

(** A reading of [n] hands with gesture [g], as [processVideoFrame] builds
    it. *)
Definition reading (n : nat) (g : GestureType) : VisionState :=
  {| handCount := n; gesture := g; isTurbo := (2 <=? n)%nat |}.

(** Random draws that spawn nothing, a cactus, a bird. *)
Definition quiet : Random := {| spawnRoll := 0.5; typeRoll := 0.5 |}.
Definition cactus : Random := {| spawnRoll := 0.01; typeRoll := 0.5 |}.
Definition bird : Random := {| spawnRoll := 0.01; typeRoll := 0.7 |}.

(** A frame with one hand showing [g] and no spawn. *)
Definition show (g : GestureType) : Event := Frame (Some (reading 1 g)) quiet.

(** A flat hand of 21 landmarks: every tip level with its joint. *)
Definition flatHand : list Vision.NormalizedLandmark :=
  repeat {| Vision.x := 0.5; Vision.y := 0.5; Vision.z := 0 |} 21.

(** A hand with landmark [i] raised to height [v]. *)
Fixpoint raise (hand : list Vision.NormalizedLandmark) (i : nat) (v : Q)
  : list Vision.NormalizedLandmark :=
  match hand, i with
  | [], _ => []
  | l :: rest, O =>
      {| Vision.x := Vision.x l; Vision.y := v; Vision.z := Vision.z l |}
        :: rest
  | l :: rest, S j => l :: raise rest j v
  end.

(** Index, middle, ring and pinky extended. *)
Definition openHand : list Vision.NormalizedLandmark :=
  raise (raise (raise (raise flatHand 8 0.2) 12 0.2) 16 0.2) 20 0.2.

(** Only the thumb tip raised. *)
Definition thumbHand : list Vision.NormalizedLandmark :=
  raise flatHand 4 0.2.

(** A frame with one hand showing [g], in a run where a cactus spawns as
    soon as the gap allows. *)
Definition look (g : GestureType) : Event :=
  Frame (Some (reading 1 g)) cactus.

(** A first session: start, then stand still until the first cactus. *)
Definition firstSession : list Event :=
  look OPEN_PALM :: repeat (look NONE) 119.

(** A second session: restart, jump over the first cactus, run into the
    second. *)
Definition secondSession : list Event :=
  look THUMBS_UP :: repeat (look NONE) 110
    ++ look OPEN_PALM :: repeat (look NONE) 60.

(** Start, jump, hold a fist for four frames, then release it. *)
Definition duckRelease : list Event :=
  show OPEN_PALM :: show OPEN_PALM :: repeat (show CLOSED_FIST) 4
    ++ repeat (show NONE) 4.

(** The game started by an open palm of two hands. *)
Definition startedWithTwoHands : Component :=
  run initialComponent [Frame (Some (reading 2 OPEN_PALM)) quiet].

(** The game started by one hand, then a frame with two hands in view. *)
Definition turboRun : Component :=
  run initialComponent
    [show OPEN_PALM; Frame (Some (reading 2 OPEN_PALM)) quiet].

(** Two hands in view for ten frames, then one hand. *)
Definition tenTurboFrames : list Event :=
  repeat (Frame (Some (reading 2 NONE)) quiet) 10.

(** The neutral reading of [processVideoFrame]. *)
Definition neutral : VisionState := reading 0 NONE.

(** Both sessions, then the response of the second request, then the late
    response of the first. *)
Definition staleRun : list Event :=
  firstSession ++ secondSession
    ++ [Commentary 1 Gemini.ApiError; Commentary 0 Gemini.ApiError].

(** The first session without its last frame. *)
Definition beforeCrash : list Event :=
  look OPEN_PALM :: repeat (look NONE) 118.

(** Start, then a fist on the ground. *)
Definition ducked : list Event := [show OPEN_PALM; show CLOSED_FIST].

(** The second session after its restart frame. *)
Definition afterRestart : list Event :=
  repeat (look NONE) 110 ++ look OPEN_PALM :: repeat (look NONE) 60.

(** An entity of the given rectangle. *)
Definition rect (x0 y0 w h : Q) : Entity :=
  {| x := x0; y := y0; width := w; height := h; color := "#ffffff" |}.

(** A cactus at horizontal position [x0]. *)
Definition cactusAt (x0 : Q) : Obstacle :=
  {| obstacleEntity :=
       {| x := x0; y := GROUND_Y - 40; width := 30; height := 40;
          color := "#ffaa00" |};
     type := CACTUS |}.

(** A [PLAYING] state with a cactus about to leave the field and another
    one on the player. *)
Definition crowded : Component :=
  {| gameState := PLAYING;
     scoreState := 0;
     visionState := reading 1 NONE;
     aiMessage := EmptyString;
     gameRef :=
       {| player := initialPlayer;
          obstacles := [cactusAt (-28); cactusAt 66];
          frameCount := 0;
          currentSpeed := BASE_SPEED;
          score := 0 |};
     inFlight := [] |}.

End Scenario.

(** ** The vertical motion on binary64 numbers

    The player control and the gravity of [tick] once more, on the numbers
    the browser computes with, for the fields they read and write. *)
Module Binary64.
Import Types.

Record Body : Type := {
  y : float;
  height : float;
  vy : float;
  isJumping : bool;
  isDucking : bool
}.

Definition GRAVITY : float := 0.6%float.
Definition JUMP_FORCE : float := (-12)%float.
Definition GROUND_Y : float := 350%float.
Definition DUCK_HEIGHT : float := 30%float.
Definition NORMAL_HEIGHT : float := 60%float.

Definition initialBody : Body :=
  {| y := (GROUND_Y - NORMAL_HEIGHT)%float; height := NORMAL_HEIGHT;
     vy := 0%float; isJumping := false; isDucking := false |}.

Definition playerControl (g : GestureType) (p : Body) : Body :=
  let p1 :=
    if GestureType_eqb g OPEN_PALM && negb (isJumping p) then
      {| y := y p; height := height p; vy := JUMP_FORCE;
         isJumping := true; isDucking := false |}
    else p in
  if GestureType_eqb g CLOSED_FIST then
    {| y := (GROUND_Y - DUCK_HEIGHT)%float; height := DUCK_HEIGHT;
       vy := if isJumping p1 then (vy p1 + 2)%float else vy p1;
       isJumping := isJumping p1; isDucking := true |}
  else if isDucking p1 then
    {| y := (GROUND_Y - NORMAL_HEIGHT)%float; height := NORMAL_HEIGHT;
       vy := vy p1; isJumping := isJumping p1; isDucking := false |}
  else p1.

Definition gravity (p : Body) : Body :=
  if (y p <? GROUND_Y - height p)%float || (vy p <? 0)%float then
    {| y := (y p + vy p)%float; height := height p;
       vy := (vy p + GRAVITY)%float;
       isJumping := true; isDucking := isDucking p |}
  else
    {| y := (GROUND_Y - height p)%float; height := height p;
       vy := 0%float; isJumping := false; isDucking := isDucking p |}.

(** The body after the [PLAYING] frames that read the given gestures. *)
Definition frames (gestures : list GestureType) (p : Body) : Body :=
  fold_left (fun q g => gravity (playerControl g q)) gestures p.

Definition feet (p : Body) : float := (y p + height p)%float.

End Binary64.

(** ** What the game keeps true *)
Module Invariant.
Import Types RunnerGame.

(** The player rectangle: fixed column, and one of the two heights, the
    duck height while ducking. *)
Definition playerShape (p : Player) : Prop :=
  x p = 50 /\ width p = 40
  /\ (height p = DUCK_HEIGHT \/ height p = NORMAL_HEIGHT)
  /\ (isDucking p = true -> height p = DUCK_HEIGHT).

(** The rectangle [spawnObstacle] gives each type of obstacle. *)
Definition obstacleShape (o : Obstacle) : Prop :=
  match type o with
  | BIRD => y o = GROUND_Y - 90 /\ width o = 40 /\ height o = 30
  | CACTUS => y o = GROUND_Y - 40 /\ width o = 30 /\ height o = 40
  end.

(** [b] is more than 310 to the right of [a]. *)
Definition spaced (a b : Obstacle) : Prop := x a + 310 < x b.

(** An obstacle between two frames: not yet past the left edge, not beyond
    the right edge. *)
Definition inField (o : Obstacle) : Prop :=
  0 <= x o + width o /\ x o <= CANVAS_WIDTH.

(** The two scroll speeds. *)
Definition speedOk (speed : Q) : Prop :=
  speed = BASE_SPEED \/ speed = BASE_SPEED * TURBO_SPEED_MULTIPLIER.

(** The game object between two events. *)
Definition field (g : Game) : Prop :=
  playerShape (player g)
  /\ speedOk (currentSpeed g)
  /\ Forall obstacleShape (obstacles g)
  /\ Forall inField (obstacles g)
  /\ StronglySorted spaced (obstacles g).

(** The score bookkeeping between two events: the score shown is the score
    of the game, a non-negative multiple of 10. *)
Definition scoreOk (c : Component) : Prop :=
  scoreState c = score (gameRef c)
  /\ exists n : nat, score (gameRef c) = (10 * Z.of_nat n)%Z.

(** The player overlaps the obstacle horizontally. *)
Definition overlapsX (p obs : Entity) : Prop :=
  x p < x obs + width obs /\ x obs < x p + width p.

End Invariant.

Import Types RunnerGame.

(** ** Comparisons *)

Lemma Qltb_lt (a b : Q) : Qltb a b = true <-> a < b.
Proof. unfold Qltb, Qlt. apply Z.ltb_lt. Qed.

Lemma Qltb_ge (a b : Q) : Qltb a b = false <-> b <= a.
Proof. unfold Qltb, Qle. rewrite Z.ltb_ge. reflexivity. Qed.

Lemma Qltb_dec (a b : Q) :
  Qltb a b = if Qlt_le_dec a b then true else false.
Proof.
  destruct (Qlt_le_dec a b) as [H | H].
  - now apply Qltb_lt.
  - now apply Qltb_ge.
Qed.

Lemma Qltb_shift (a b c : Q) : Qltb a (b - c) = Qltb (a + c) b.
Proof.
  rewrite !Qltb_dec.
  destruct (Qlt_le_dec a (b - c)), (Qlt_le_dec (a + c) b);
    try reflexivity; exfalso; lra.
Qed.

(** ** The gesture classifier *)

Section Classifier.

Variable hand : list Vision.NormalizedLandmark.
Hypothesis complete : (21 <= List.length hand)%nat.

Lemma landmark_present (i : nat) :
  (i < 21)%nat ->
  nth_error hand i
  = Some (nth i hand {| Vision.x := 0; Vision.y := 0; Vision.z := 0 |}).
Proof. intro Hi. apply nth_error_nth'. lia. Qed.

Lemma isExtended_extended (tip pip : nat) :
  (if Vision.isExtended
        (nth tip hand {| Vision.x := 0; Vision.y := 0; Vision.z := 0 |})
        (nth pip hand {| Vision.x := 0; Vision.y := 0; Vision.z := 0 |})
   then 1%nat else 0%nat)
  = Spec.extended hand tip pip.
Proof.
  unfold Vision.isExtended, Spec.extended, Spec.landmarkY.
  rewrite Qltb_dec.
  now destruct (Qlt_le_dec _ _).
Qed.

(** The decision list of [detectGesture], on the thumb test and the count. *)
Lemma detectGesture_unfold :
  Vision.detectGesture hand
  = Some
      (if Qltb (Spec.landmarkY hand 4) (Spec.landmarkY hand 3)
          && (Spec.extendedCount hand =? 0)%nat
       then THUMBS_UP
       else if (3 <=? Spec.extendedCount hand)%nat then OPEN_PALM
       else if (Spec.extendedCount hand <=? 1)%nat then CLOSED_FIST
       else NONE).
Proof.
  unfold Vision.detectGesture.
  rewrite !landmark_present by lia.
  cbn [obind].
  unfold Spec.extendedCount.
  rewrite <- !isExtended_extended.
  fold (Spec.landmarkY hand 4). fold (Spec.landmarkY hand 3).
  destruct (Vision.isExtended (nth 8 hand _) _),
           (Vision.isExtended (nth 12 hand _) _),
           (Vision.isExtended (nth 16 hand _) _),
           (Vision.isExtended (nth 20 hand _) _);
    cbn [filter List.length Nat.add Nat.eqb Nat.leb andb];
    destruct (Qltb (Spec.landmarkY hand 4) (Spec.landmarkY hand 3));
    reflexivity.
Qed.

End Classifier.

(** C6. For a hand with all its landmarks, [detectGesture] returns
    THUMBS_UP exactly when the thumb tip is above the thumb IP joint and no
    finger among index, middle, ring and pinky is extended; otherwise
    OPEN_PALM exactly when at least three are; otherwise CLOSED_FIST exactly
    when at most one is; otherwise NONE. *)
Theorem detectGesture_decision_list (hand : list Vision.NormalizedLandmark)
    (complete : (21 <= List.length hand)%nat) :
  exists g,
    Vision.detectGesture hand = Some g
    /\ (g = THUMBS_UP <->
        Spec.thumbUp hand /\ Spec.extendedCount hand = 0%nat)
    /\ (g = OPEN_PALM <->
        ~ (Spec.thumbUp hand /\ Spec.extendedCount hand = 0%nat)
        /\ (3 <= Spec.extendedCount hand)%nat)
    /\ (g = CLOSED_FIST <->
        ~ (Spec.thumbUp hand /\ Spec.extendedCount hand = 0%nat)
        /\ ~ (3 <= Spec.extendedCount hand)%nat
        /\ (Spec.extendedCount hand <= 1)%nat)
    /\ (g = NONE <->
        ~ (Spec.thumbUp hand /\ Spec.extendedCount hand = 0%nat)
        /\ ~ (3 <= Spec.extendedCount hand)%nat
        /\ ~ (Spec.extendedCount hand <= 1)%nat).
Proof.
  eexists. split; [apply detectGesture_unfold; exact complete|].
  unfold Spec.thumbUp.
  rewrite Qltb_dec.
  destruct (Qlt_le_dec (Spec.landmarkY hand 4) (Spec.landmarkY hand 3))
    as [Hup | Hdown];
    destruct (Nat.eqb_spec (Spec.extendedCount hand) 0) as [Hz | Hz];
    destruct (Nat.leb_spec 3 (Spec.extendedCount hand)) as [H3 | H3];
    destruct (Nat.leb_spec (Spec.extendedCount hand) 1) as [H1 | H1];
    cbn [andb];
    repeat split; intros; try discriminate; try assumption; try lia;
    repeat match goal with
    | H : _ /\ _ |- _ => destruct H
    | H : ~ (_ /\ _) |- _ => exfalso; apply H; split; [assumption | lia]
    | |- ~ _ => intros [? ?]
    end; try lia; try (exfalso; lra).
Qed.

(** The classifier on a complete hand: an open hand and a thumb. *)
Lemma detectGesture_decision_list_witness :
  (21 <= List.length Scenario.openHand)%nat /\
  exists g,
    Vision.detectGesture Scenario.openHand = Some g
    /\ (g = THUMBS_UP <->
        Spec.thumbUp Scenario.openHand
        /\ Spec.extendedCount Scenario.openHand = 0%nat)
    /\ (g = OPEN_PALM <->
        ~ (Spec.thumbUp Scenario.openHand
           /\ Spec.extendedCount Scenario.openHand = 0%nat)
        /\ (3 <= Spec.extendedCount Scenario.openHand)%nat)
    /\ (g = CLOSED_FIST <->
        ~ (Spec.thumbUp Scenario.openHand
           /\ Spec.extendedCount Scenario.openHand = 0%nat)
        /\ ~ (3 <= Spec.extendedCount Scenario.openHand)%nat
        /\ (Spec.extendedCount Scenario.openHand <= 1)%nat)
    /\ (g = NONE <->
        ~ (Spec.thumbUp Scenario.openHand
           /\ Spec.extendedCount Scenario.openHand = 0%nat)
        /\ ~ (3 <= Spec.extendedCount Scenario.openHand)%nat
        /\ ~ (Spec.extendedCount Scenario.openHand <= 1)%nat).
Proof.
  split; [simpl; lia|].
  apply (detectGesture_decision_list Scenario.openHand).
  simpl. lia.
Defined.

Example detectGesture_openHand :
  Vision.detectGesture Scenario.openHand = Some OPEN_PALM.
Proof. reflexivity. Qed.

Example detectGesture_thumbHand :
  Vision.detectGesture Scenario.thumbHand = Some THUMBS_UP.
Proof. reflexivity. Qed.

Example detectGesture_flatHand :
  Vision.detectGesture Scenario.flatHand = Some CLOSED_FIST.
Proof. reflexivity. Qed.

Example detectGesture_incomplete :
  Vision.detectGesture (firstn 20 Scenario.flatHand) = None.
Proof. reflexivity. Qed.

(** ** The frame step *)

Lemma GameState_eqb_eq (a b : GameState) :
  GameState_eqb a b = true <-> a = b.
Proof. destruct a, b; simpl; split; intro H; congruence. Qed.

Lemma GestureType_eqb_eq (a b : GestureType) :
  GestureType_eqb a b = true <-> a = b.
Proof. destruct a, b; simpl; split; intro H; congruence. Qed.

(** A frame of a callback created in [PLAYING] is step 1 then step 2. *)
Lemma tick_playing (c : Component) (video : option VisionState)
    (rnd : Random) :
  gameState c = PLAYING ->
  tick c video rnd = updatePhysics (processVision c video) rnd.
Proof. intro H. unfold tick. now rewrite H. Qed.

(** A frame of any other callback is step 1 alone. *)
Lemma tick_paused (c : Component) (video : option VisionState)
    (rnd : Random) :
  gameState c <> PLAYING ->
  tick c video rnd = processVision c video.
Proof.
  intro H. unfold tick.
  destruct (gameState c); try reflexivity. now elim H.
Qed.

(** Step 1 of a [PLAYING] frame keeps the phase, the score and the
    obstacles. *)
Lemma processVision_playing (c : Component) (video : option VisionState) :
  gameState c = PLAYING ->
  gameState (processVision c video) = PLAYING
  /\ score (gameRef (processVision c video)) = score (gameRef c)
  /\ obstacles (gameRef (processVision c video)) = obstacles (gameRef c)
  /\ inFlight (processVision c video) = inFlight c.
Proof.
  intro H. destruct video as [v|]; simpl; [|auto].
  unfold handleInputs. rewrite H. simpl. auto.
Qed.

Lemma initial_then_palm_playing :
  gameState (run initialComponent [Scenario.show OPEN_PALM]) = PLAYING.
Proof. reflexivity. Qed.

(** C2. In every PLAYING frame the player that the frame leaves is the one
    step 1 leaves, integrated once: if the feet are above the ground line or
    the velocity is negative, y += vy, then vy += GRAVITY, airborne;
    otherwise vy = 0, not airborne, y = GROUND_Y - height.  The constants
    are the stated ones. *)
Theorem tick_vertical_integration (c : Component)
    (video : option VisionState) (rnd : Random)
    (playing : gameState c = PLAYING) :
  let p := player (gameRef (processVision c video)) in
  let p' := player (gameRef (tick c video rnd)) in
  (y p + height p < GROUND_Y \/ vy p < 0 ->
   p' = {| playerEntity := setY p (y p + vy p);
           vy := vy p + GRAVITY;
           isJumping := true;
           isDucking := isDucking p |})
  /\ (~ (y p + height p < GROUND_Y \/ vy p < 0) ->
      p' = {| playerEntity := setY p (GROUND_Y - height p);
              vy := 0;
              isJumping := false;
              isDucking := isDucking p |})
  /\ GRAVITY = 0.6 /\ JUMP_FORCE = -12 /\ BASE_SPEED = 6
  /\ TURBO_SPEED_MULTIPLIER = 1.8
  /\ DUCK_HEIGHT = 30 /\ NORMAL_HEIGHT = 60.
Proof.
  intros p p'. subst p'.
  rewrite (tick_playing _ _ _ playing).
  cbn [updatePhysics gameRef player]. fold p.
  unfold gravity. rewrite Qltb_shift, !Qltb_dec.
  repeat split.
  - intros [Hf | Hv].
    + destruct (Qlt_le_dec (y p + height p) GROUND_Y); [reflexivity|].
      exfalso; lra.
    + destruct (Qlt_le_dec (y p + height p) GROUND_Y); [reflexivity|].
      destruct (Qlt_le_dec (vy p) 0); [reflexivity|]. exfalso; lra.
  - intro Hn.
    destruct (Qlt_le_dec (y p + height p) GROUND_Y) as [Hf|_];
      [elim Hn; now left|].
    destruct (Qlt_le_dec (vy p) 0) as [Hv|_]; [elim Hn; now right|].
    reflexivity.
Qed.

(** The integration on the frame after the game starts. *)
Lemma tick_vertical_integration_witness :
  gameState (run initialComponent [Scenario.show OPEN_PALM]) = PLAYING
  /\ player (gameRef
       (tick (run initialComponent [Scenario.show OPEN_PALM])
          (Some (Scenario.reading 1 OPEN_PALM)) Scenario.quiet))
     = {| playerEntity := setY initialPlayer (y initialPlayer + JUMP_FORCE);
          vy := JUMP_FORCE + GRAVITY;
          isJumping := true;
          isDucking := false |}.
Proof.
  split; [reflexivity|].
  apply (tick_vertical_integration
           (run initialComponent [Scenario.show OPEN_PALM])
           (Some (Scenario.reading 1 OPEN_PALM)) Scenario.quiet
           initial_then_palm_playing).
  right. vm_compute. reflexivity.
Defined.

(** ** Ducking *)

(** On [CLOSED_FIST] the control of a [PLAYING] frame is [duck]. *)
Lemma playerControl_fist (vState : VisionState) (p : Player) :
  gesture vState = CLOSED_FIST ->
  playerControl vState p = duck p.
Proof.
  intro H. unfold playerControl, jump. rewrite H. reflexivity.
Qed.

(** C9. In a PLAYING frame with gesture CLOSED_FIST the duck transition
    sets the ducking flag, the duck height and y = GROUND_Y - DUCK_HEIGHT,
    and adds 2 to vy only when the player is airborne; applied again, it
    leaves height and position as they are. *)
Theorem duck_transition (c : Component) (vState : VisionState)
    (playing : gameState c = PLAYING)
    (fist : gesture vState = CLOSED_FIST) :
  let p0 := player (gameRef c) in
  let p1 := player (gameRef (handleInputs c vState)) in
  let p2 := player (gameRef (handleInputs (handleInputs c vState) vState)) in
  isDucking p1 = true
  /\ height p1 = DUCK_HEIGHT
  /\ y p1 = GROUND_Y - DUCK_HEIGHT
  /\ vy p1 = (if isJumping p0 then vy p0 + 2 else vy p0)
  /\ x p1 = x p0 /\ width p1 = width p0
  /\ isJumping p1 = isJumping p0
  /\ height p2 = height p1 /\ y p2 = y p1 /\ x p2 = x p1
  /\ width p2 = width p1 /\ isDucking p2 = true.
Proof.
  intros p0 p1 p2.
  assert (H1 : p1 = duck p0).
  { subst p1 p0. unfold handleInputs. rewrite playing.
    cbn [gameRef player]. now apply playerControl_fist. }
  assert (H2 : p2 = duck p1).
  { subst p2 p1. unfold handleInputs at 1.
    replace (gameState (handleInputs c vState)) with PLAYING
      by (unfold handleInputs; now rewrite playing).
    cbn [gameRef player]. now apply playerControl_fist. }
  rewrite H2, H1. cbn. repeat split; reflexivity.
Qed.

(** A fist on the frame after the game starts. *)
Lemma duck_transition_witness :
  gameState (run initialComponent [Scenario.show OPEN_PALM]) = PLAYING
  /\ gesture (Scenario.reading 1 CLOSED_FIST) = CLOSED_FIST
  /\ isDucking
       (player (gameRef
          (handleInputs (run initialComponent [Scenario.show OPEN_PALM])
             (Scenario.reading 1 CLOSED_FIST)))) = true.
Proof.
  split; [reflexivity|]. split; [reflexivity|].
  apply (duck_transition
           (run initialComponent [Scenario.show OPEN_PALM])
           (Scenario.reading 1 CLOSED_FIST)
           initial_then_palm_playing eq_refl).
Defined.

(** ** Restart *)

Lemma firstSession_game_over :
  gameState (run initialComponent Scenario.firstSession) = GAME_OVER.
Proof. vm_compute. reflexivity. Qed.

(** C5. In GAME_OVER, a frame with a fresh reading of THUMBS_UP moves to
    PLAYING and leaves the simulation state equal to the initial one: the
    player at x = 50, y = GROUND_Y - NORMAL_HEIGHT, normal height, vy = 0,
    neither jumping nor ducking; no obstacle; frameCount 0; base speed;
    score 0; and the commentary text empty. *)
Theorem thumbs_up_resets (c : Component) (vState : VisionState)
    (rnd : Random)
    (over : gameState c = GAME_OVER)
    (thumbs : gesture vState = THUMBS_UP) :
  let c' := tick c (Some vState) rnd in
  gameState c' = PLAYING
  /\ gameRef c' = gameRef initialComponent
  /\ gameRef c'
     = {| player :=
            {| playerEntity :=
                 {| x := 50; y := GROUND_Y - NORMAL_HEIGHT; width := 40;
                    height := NORMAL_HEIGHT; color := "#00ffcc" |};
               vy := 0; isJumping := false; isDucking := false |};
          obstacles := [];
          frameCount := 0;
          currentSpeed := BASE_SPEED;
          score := 0 |}
  /\ scoreState c' = 0%Z
  /\ aiMessage c' = EmptyString.
Proof.
  intro c'. subst c'.
  rewrite tick_paused by (rewrite over; discriminate).
  cbn [processVision]. unfold handleInputs.
  rewrite over, thumbs. cbn. repeat split; reflexivity.
Qed.

(** The restart after the first session. *)
Lemma thumbs_up_resets_witness :
  gameState (run initialComponent Scenario.firstSession) = GAME_OVER
  /\ gesture (Scenario.reading 1 THUMBS_UP) = THUMBS_UP
  /\ gameRef
       (tick (run initialComponent Scenario.firstSession)
          (Some (Scenario.reading 1 THUMBS_UP)) Scenario.cactus)
     = gameRef initialComponent.
Proof.
  split; [exact firstSession_game_over|]. split; [reflexivity|].
  apply (thumbs_up_resets (run initialComponent Scenario.firstSession)
           (Scenario.reading 1 THUMBS_UP) Scenario.cactus
           firstSession_game_over eq_refl).
Defined.

(** ** The obstacle pass *)

Section ObstaclePass.

Variables (p : Player) (speed : Q).

(** One iteration keeps the moved obstacle unless it left the field. *)
Lemma visit_kept (o : Obstacle) (st : Pass) :
  kept (visit p speed o st)
  = if Spec.live (moveObstacle speed o)
    then moveObstacle speed o :: kept st
    else kept st.
Proof.
  unfold visit, Spec.live.
  now destruct (offScreen (moveObstacle speed o)),
               (collides p (moveObstacle speed o)).
Qed.

(** One iteration adds 10 exactly when the moved obstacle left the field. *)
Lemma visit_score (o : Obstacle) (st : Pass) :
  passScore (visit p speed o st)
  = (passScore st + if offScreen (moveObstacle speed o) then 10 else 0)%Z.
Proof.
  unfold visit.
  destruct (offScreen (moveObstacle speed o)),
           (collides p (moveObstacle speed o)); cbn [passScore]; lia.
Qed.

(** One iteration calls [handleGameOver] exactly when the moved obstacle
    overlaps the player, with the score of that moment. *)
Lemma visit_gameOvers (o : Obstacle) (st : Pass) :
  gameOvers (visit p speed o st)
  = gameOvers st
    ++ (if collides p (moveObstacle speed o)
        then [passScore (visit p speed o st)] else []).
Proof.
  unfold visit.
  destruct (offScreen (moveObstacle speed o)),
           (collides p (moveObstacle speed o));
    cbn [gameOvers passScore]; now rewrite ?app_nil_r.
Qed.

Variables (score0 shown0 : Z).

(** The pass keeps, in order, the moved obstacles still in the field,
    whatever collides. *)
Lemma moveAndCollide_kept (obs : list Obstacle) :
  kept (moveAndCollide p speed obs score0 shown0)
  = filter Spec.live (map (moveObstacle speed) obs).
Proof.
  unfold moveAndCollide.
  induction obs as [|o rest IH]; [reflexivity|].
  cbn [fold_right map filter]. rewrite visit_kept, IH.
  now destruct (Spec.live (moveObstacle speed o)).
Qed.

(** The pass adds 10 for each moved obstacle that left the field, whatever
    collides. *)
Lemma moveAndCollide_score (obs : list Obstacle) :
  passScore (moveAndCollide p speed obs score0 shown0)
  = (score0
     + 10 * Z.of_nat
              (List.length
                 (filter (fun o : Obstacle => offScreen o)
                    (map (moveObstacle speed) obs))))%Z.
Proof.
  unfold moveAndCollide.
  induction obs as [|o rest IH]; [simpl; lia|].
  cbn [fold_right map filter]. rewrite visit_score, IH.
  destruct (offScreen (moveObstacle speed o)); cbn [List.length]; lia.
Qed.

(** [handleGameOver] is called exactly when some moved obstacle overlaps
    the player. *)
Lemma moveAndCollide_gameOvers (obs : list Obstacle) :
  gameOvers (moveAndCollide p speed obs score0 shown0) <> []
  <-> exists o, In o (map (moveObstacle speed) obs) /\ collides p o = true.
Proof.
  unfold moveAndCollide.
  induction obs as [|o rest IH].
  - simpl. split; [congruence | intros [o [[] _]]].
  - cbn [fold_right map]. rewrite visit_gameOvers.
    destruct (collides p (moveObstacle speed o)) eqn:Hc.
    + split.
      * intros _. exists (moveObstacle speed o).
        split; [now left | exact Hc].
      * intros _ H. apply app_eq_nil in H. destruct H as [_ H].
        discriminate H.
    + rewrite app_nil_r, IH. split.
      * intros [o' [Hin Ho']]. exists o'. split; [now right | exact Ho'].
      * intros [o' [[Heq | Hin] Ho']].
        -- subst o'. congruence.
        -- exists o'. now split.
Qed.

End ObstaclePass.

(** ** Collision *)

(** What step 2 leaves, in terms of the moved obstacles. *)
Lemma updatePhysics_obstacles (c : Component) (rnd : Random) :
  obstacles (gameRef (updatePhysics c rnd))
  = filter Spec.live (Spec.movedObstacles (gameRef c) rnd).
Proof. cbn. apply moveAndCollide_kept. Qed.

Lemma updatePhysics_score (c : Component) (rnd : Random) :
  score (gameRef (updatePhysics c rnd))
  = (score (gameRef c)
     + 10 * Z.of_nat
              (List.length
                 (filter (fun o : Obstacle => offScreen o)
                    (Spec.movedObstacles (gameRef c) rnd))))%Z.
Proof. cbn. apply moveAndCollide_score. Qed.

Lemma updatePhysics_game_over (c : Component) (rnd : Random) :
  gameState c = PLAYING ->
  (gameState (updatePhysics c rnd) = GAME_OVER
   <-> exists o, In o (Spec.movedObstacles (gameRef c) rnd)
                 /\ collides (gravity (player (gameRef c))) o = true).
Proof.
  intro playing. unfold Spec.movedObstacles.
  rewrite <- (moveAndCollide_gameOvers _ _ (score (gameRef c))
                (scoreState c)).
  cbn [updatePhysics gameState].
  destruct (gameOvers _); rewrite ?playing; split;
    congruence || discriminate.
Qed.

(** C1. In a PLAYING frame, once the player and the obstacles have moved,
    the phase becomes GAME_OVER exactly when the player rectangle overlaps
    a moved obstacle; in the same pass, and whether or not something
    collides, every obstacle that left the field is removed and credited 10.
    The overlap test is true for the player at (50, 290, 40, 60) and the
    obstacle at (60, 310, 30, 40), false for the obstacle at x = 200. *)
Theorem tick_collision_pass (c : Component) (video : option VisionState)
    (rnd : Random) (playing : gameState c = PLAYING) :
  let c1 := processVision c video in
  let p := gravity (player (gameRef c1)) in
  let moved := Spec.movedObstacles (gameRef c1) rnd in
  let c' := tick c video rnd in
  ((exists obs, In obs moved /\ collides p obs = true)
   <-> gameState c' = GAME_OVER)
  /\ obstacles (gameRef c') = filter Spec.live moved
  /\ score (gameRef c')
     = (score (gameRef c)
        + 10 * Z.of_nat
                 (List.length
                    (filter (fun o : Obstacle => offScreen o) moved)))%Z
  /\ collides (Scenario.rect 50 290 40 60) (Scenario.rect 60 310 30 40)
     = true
  /\ collides (Scenario.rect 50 290 40 60) (Scenario.rect 200 310 30 40)
     = false.
Proof.
  intros c1 p moved c'. subst c'.
  rewrite (tick_playing _ _ _ playing). fold c1.
  destruct (processVision_playing c video playing)
    as (Hphase & Hscore & _ & _). fold c1 in Hphase, Hscore.
  repeat split.
  - intro H. now apply updatePhysics_game_over.
  - intro H. now apply updatePhysics_game_over in H.
  - apply updatePhysics_obstacles.
  - rewrite updatePhysics_score, Hscore. reflexivity.
Qed.

(** A frame on which one cactus hits the player and another one leaves the
    field: the game is over, and the cactus that left is removed and
    credited. *)
Lemma tick_collision_pass_witness :
  gameState Scenario.crowded = PLAYING
  /\ gameState (tick Scenario.crowded None Scenario.quiet) = GAME_OVER
  /\ obstacles (gameRef (tick Scenario.crowded None Scenario.quiet))
     = [moveObstacle BASE_SPEED (Scenario.cactusAt 66)]
  /\ score (gameRef (tick Scenario.crowded None Scenario.quiet)) = 10%Z.
Proof.
  split; [reflexivity|].
  destruct (tick_collision_pass Scenario.crowded None Scenario.quiet
              eq_refl) as (Hover & Hkept & Hscore & _).
  split; [|split].
  - apply Hover. exists (moveObstacle BASE_SPEED (Scenario.cactusAt 66)).
    split; [right; left; reflexivity | vm_compute; reflexivity].
  - rewrite Hkept. reflexivity.
  - rewrite Hscore. reflexivity.
Defined.

(** ** Score *)

(** Step 1 changes the score only by a reset. *)
Lemma handleInputs_score (c : Component) (vState : VisionState) :
  Spec.isReset c (Frame (Some vState) Scenario.quiet) = false ->
  score (gameRef (handleInputs c vState)) = score (gameRef c).
Proof.
  unfold handleInputs, Spec.isReset. intros Hr.
  destruct (gameState c); cbn in *; try reflexivity.
  now rewrite Hr.
Qed.

(** C4. An event that is not a reset never lowers the score: the score
    grows by exactly 10 for each obstacle the event removes from the
    sequence.  The obstacles removed are those of a PLAYING frame whose
    right edge, once moved, is left of the field's left boundary; they are
    no longer in the sequence afterwards, and what stays in the sequence has
    its right edge in the field. *)
Theorem score_counts_removed (c : Component) (e : Event)
    (noReset : Spec.isReset c e = false) :
  score (gameRef (step c e))
  = (score (gameRef c) + 10 * Z.of_nat (Spec.removedBy c e))%Z
  /\ (score (gameRef c) <= score (gameRef (step c e)))%Z
  /\ (forall video rnd,
        e = Frame video rnd -> gameState c = PLAYING ->
        let moved :=
          Spec.movedObstacles (gameRef (processVision c video)) rnd in
        obstacles (gameRef (step c e)) = filter Spec.live moved
        /\ Spec.removedBy c e
           = List.length (filter (fun o : Obstacle => offScreen o) moved)
        /\ List.length moved
           = (List.length (obstacles (gameRef (step c e)))
              + Spec.removedBy c e)%nat
        /\ (forall o : Obstacle,
              In o moved -> (offScreen o = true <-> x o + width o < 0))
        /\ (forall o : Obstacle,
              In o (obstacles (gameRef (step c e))) ->
              0 <= x o + width o)).
Proof.
  assert (Hscore :
    score (gameRef (step c e))
    = (score (gameRef c) + 10 * Z.of_nat (Spec.removedBy c e))%Z).
  { destruct e as [video rnd | i o]; cbn [step Spec.removedBy].
    - destruct (GameState_eqb (gameState c) PLAYING) eqn:Hp.
      + apply GameState_eqb_eq in Hp.
        rewrite (tick_playing _ _ _ Hp), updatePhysics_score.
        destruct (processVision_playing c video Hp) as (_ & Hs & _).
        now rewrite Hs.
      + assert (Hn : gameState c <> PLAYING).
        { intro H. apply GameState_eqb_eq in H. congruence. }
        rewrite (tick_paused _ _ _ Hn).
        destruct video as [v|]; cbn [processVision]; [|lia].
        rewrite handleInputs_score; [lia | exact noReset].
    - unfold commentaryArrives.
      destruct (nth_error (inFlight c) i); cbn; lia. }
  split; [exact Hscore|]. split; [lia|].
  intros video rnd -> playing moved.
  cbn [step Spec.removedBy].
  rewrite (tick_playing _ _ _ playing), updatePhysics_obstacles.
  replace (GameState_eqb (gameState c) PLAYING) with true
    by (symmetry; now apply GameState_eqb_eq).
  fold moved.
  split; [reflexivity|]. split; [reflexivity|]. split; [|split].
  - unfold Spec.live. clear. induction moved as [|o rest IH];
      [reflexivity|].
    cbn [filter List.length]. destruct (offScreen o); cbn [negb List.length];
      lia.
  - intros o _. apply Qltb_lt.
  - intros o Hin. apply filter_In in Hin. destruct Hin as [_ Hlive].
    unfold Spec.live in Hlive. apply negb_true_iff in Hlive.
    now apply Qltb_ge in Hlive.
Qed.

(** The frame on which a cactus leaves the field. *)
Lemma score_counts_removed_witness :
  Spec.isReset Scenario.crowded (Frame None Scenario.quiet) = false
  /\ score (gameRef (step Scenario.crowded (Frame None Scenario.quiet)))
     = (score (gameRef Scenario.crowded) + 10 * 1)%Z.
Proof.
  split; [reflexivity|].
  apply (score_counts_removed Scenario.crowded (Frame None Scenario.quiet)
           eq_refl).
Defined.

(** Along a run without a reset the score is the initial one plus 10 for
    each obstacle removed. *)
Lemma session_score (events : list Event) :
  forall c, Spec.session c events = true ->
    score (gameRef (run c events))
    = (score (gameRef c) + 10 * Z.of_nat (Spec.removedAlong c events))%Z.
Proof.
  induction events as [|e rest IH]; intros c Hs.
  - simpl. lia.
  - cbn [Spec.session] in Hs. apply andb_true_iff in Hs.
    destruct Hs as [He Hrest]. apply negb_true_iff in He.
    cbn [run fold_left Spec.removedAlong].
    change (fold_left step rest (step c e)) with (run (step c e) rest).
    rewrite (IH _ Hrest).
    destruct e as [video rnd | i o].
    + cbn [step Spec.removedBy].
      destruct (GameState_eqb (gameState c) PLAYING) eqn:Hp.
      * apply GameState_eqb_eq in Hp.
        rewrite (tick_playing _ _ _ Hp), updatePhysics_score.
        destruct (processVision_playing c video Hp) as (_ & Hsc & _).
        rewrite Hsc. lia.
      * assert (Hn : gameState c <> PLAYING).
        { intro H. apply GameState_eqb_eq in H. congruence. }
        rewrite (tick_paused _ _ _ Hn).
        destruct video as [v|]; cbn [processVision]; [|lia].
        rewrite handleInputs_score; [lia | exact He].
    + cbn [step Spec.removedBy]. unfold commentaryArrives.
      destruct (nth_error (inFlight c) i); cbn; lia.
Qed.

(** ** Spawning *)

Example spawn_first_cactus :
  spawnObstacle BASE_SPEED Scenario.cactus [] = [Scenario.cactusAt 800].
Proof. reflexivity. Qed.

Example spawn_first_bird :
  map (fun o : Obstacle => (type o, y o, width o, height o))
    (spawnObstacle BASE_SPEED Scenario.bird [])
  = [(BIRD, GROUND_Y - 90, 40, 30)].
Proof. reflexivity. Qed.

(** At base speed nothing spawns while the last obstacle is within 310 of
    the right edge, whatever the draw. *)
Lemma spawn_gated (rnd : Random) (obs : list Obstacle) (lastObs : Obstacle) :
  CANVAS_WIDTH - x lastObs <= 310 ->
  spawnObstacle BASE_SPEED rnd (obs ++ [lastObs]) = obs ++ [lastObs].
Proof.
  intro Hgap. unfold spawnObstacle.
  rewrite length_app, Nat.add_sub. cbn [List.length].
  rewrite nth_error_app2, Nat.sub_diag by lia. cbn [nth_error].
  unfold Qgtb. rewrite Qltb_dec.
  destruct (Qlt_le_dec _ _) as [H|H]; [|reflexivity].
  exfalso. unfold BASE_SPEED in H. lra.
Qed.

(** ** Scroll speed *)

(** Step 2 moves the obstacles by the speed step 1 left and keeps it. *)
Lemma updatePhysics_speed (c : Component) (rnd : Random) :
  currentSpeed (gameRef (updatePhysics c rnd)) = currentSpeed (gameRef c).
Proof. reflexivity. Qed.

(** Every Vision State of [processVideoFrame] has [isTurbo] exactly when
    two hands or more are in view, whatever the gesture. *)
Lemma processVideoFrame_isTurbo
    (detected : option (list (list Vision.NormalizedLandmark)))
    (v : VisionState) :
  Vision.processVideoFrame detected = Some v ->
  isTurbo v = (2 <=? handCount v)%nat.
Proof.
  destruct detected as [hands|]; cbn.
  - destruct (Vision.primaryGesture hands); cbn; [|discriminate].
    intro H. injection H as <-. reflexivity.
  - intro H. injection H as <-. reflexivity.
Qed.

(** On complete hands the classifier does not throw. *)
Lemma primaryGesture_total (hands : list (list Vision.NormalizedLandmark)) :
  Forall (fun hand => (21 <= List.length hand)%nat) hands ->
  exists g, Vision.primaryGesture hands = Some g.
Proof.
  induction 1 as [|hand rest Hhand _ IH]; cbn; [now exists NONE|].
  rewrite (detectGesture_unfold hand Hhand). cbn [obind].
  match goal with
  | |- context [GestureType_eqb ?g NONE] =>
      destruct (GestureType_eqb g NONE); cbn [negb];
      [exact IH | now exists g]
  end.
Qed.

(** A PLAYING frame in which the detector sees two complete hands or more
    runs at turbo speed, whatever the hands show. *)
Lemma frame_two_hands (c : Component)
    (hands : list (list Vision.NormalizedLandmark)) (rnd : Random) :
  gameState c = PLAYING ->
  Forall (fun hand => (21 <= List.length hand)%nat) hands ->
  (2 <= List.length hands)%nat ->
  exists c',
    frame c (Some (Some hands)) rnd = Some c'
    /\ currentSpeed (gameRef c') = BASE_SPEED * TURBO_SPEED_MULTIPLIER.
Proof.
  intros playing complete two.
  destruct (primaryGesture_total hands complete) as [g Hg].
  unfold frame, Vision.processVideoFrame. rewrite Hg. cbn [obind].
  eexists. split; [reflexivity|].
  rewrite (tick_playing _ _ _ playing), updatePhysics_speed.
  cbn [processVision]. unfold handleInputs. rewrite playing.
  cbn [gameRef currentSpeed isTurbo].
  apply Nat.leb_le in two. now rewrite two.
Qed.

Example frame_two_flat_hands :
  option_map (fun c => currentSpeed (gameRef c))
    (frame (run initialComponent [Scenario.show OPEN_PALM])
       (Some (Some [Scenario.flatHand; Scenario.thumbHand]))
       Scenario.quiet)
  = Some (BASE_SPEED * TURBO_SPEED_MULTIPLIER).
Proof. reflexivity. Qed.

Lemma turboRun_playing : gameState Scenario.turboRun = PLAYING.
Proof. reflexivity. Qed.

(** C7, as the code has it. In a PLAYING frame whose video is ready, the
    scroll speed of the frame, by which its obstacles move, is
    BASE_SPEED * 1.8 if the fresh Vision State has isTurbo and BASE_SPEED
    otherwise, whatever it was before; isTurbo holds exactly when
    handCount >= 2, whatever the gesture.  In a PLAYING frame whose video is
    not ready the speed is the one of the previous frame.  With two hands
    read on ten frames in a row the speed is BASE_SPEED * 1.8 on each, and
    BASE_SPEED on the frame that reads one hand. *)
Theorem speed_follows_fresh_reading (c : Component) (vState : VisionState)
    (rnd : Random) (playing : gameState c = PLAYING) :
  let speed :=
    if isTurbo vState then BASE_SPEED * TURBO_SPEED_MULTIPLIER
    else BASE_SPEED in
  currentSpeed (gameRef (tick c (Some vState) rnd)) = speed
  /\ obstacles (gameRef (tick c (Some vState) rnd))
     = filter Spec.live
         (map (moveObstacle speed)
            (spawnObstacle speed rnd (obstacles (gameRef c))))
  /\ (forall detected,
        Vision.processVideoFrame detected = Some vState ->
        isTurbo vState = (2 <=? handCount vState)%nat)
  /\ currentSpeed (gameRef (tick c None rnd)) = currentSpeed (gameRef c)
  /\ Spec.speeds (run initialComponent [Scenario.show OPEN_PALM])
       (Scenario.tenTurboFrames ++ [Scenario.show NONE])
     = repeat (BASE_SPEED * TURBO_SPEED_MULTIPLIER) 10 ++ [BASE_SPEED].
Proof.
  intro speed.
  rewrite !(tick_playing _ _ _ playing), !updatePhysics_speed,
    updatePhysics_obstacles.
  cbn [processVision]. unfold handleInputs, Spec.movedObstacles.
  rewrite playing. cbn [gameRef currentSpeed obstacles]. fold speed.
  split; [reflexivity|]. split; [reflexivity|]. split.
  - intros detected H. exact (processVideoFrame_isTurbo detected vState H).
  - split; reflexivity.
Qed.

(** Two hands, then one hand, after a frame at turbo speed. *)
Lemma speed_follows_fresh_reading_witness :
  gameState Scenario.turboRun = PLAYING
  /\ currentSpeed
       (gameRef (tick Scenario.turboRun (Some (Scenario.reading 2 NONE))
                   Scenario.quiet))
     = BASE_SPEED * TURBO_SPEED_MULTIPLIER
  /\ currentSpeed
       (gameRef (tick Scenario.turboRun (Some (Scenario.reading 1 NONE))
                   Scenario.quiet))
     = BASE_SPEED.
Proof.
  split; [reflexivity|]. split.
  - apply (speed_follows_fresh_reading Scenario.turboRun
             (Scenario.reading 2 NONE) Scenario.quiet turboRun_playing).
  - apply (speed_follows_fresh_reading Scenario.turboRun
             (Scenario.reading 1 NONE) Scenario.quiet turboRun_playing).
Defined.

(** C7, as stated, fails: two PLAYING frames without a ready video, with
    the same stored Vision State (two hands, isTurbo), run at different
    speeds, BASE_SPEED after a start with two hands and BASE_SPEED * 1.8
    after a frame at turbo speed; the speed is the one latched by the last
    PLAYING frame that had a ready video. *)
Lemma speed_latched_counterexample :
  gameState Scenario.startedWithTwoHands = PLAYING
  /\ gameState Scenario.turboRun = PLAYING
  /\ visionState (tick Scenario.startedWithTwoHands None Scenario.quiet)
     = Scenario.reading 2 OPEN_PALM
  /\ visionState (tick Scenario.turboRun None Scenario.quiet)
     = Scenario.reading 2 OPEN_PALM
  /\ isTurbo (Scenario.reading 2 OPEN_PALM) = true
  /\ currentSpeed
       (gameRef (tick Scenario.startedWithTwoHands None Scenario.quiet))
     = BASE_SPEED
  /\ currentSpeed (gameRef (tick Scenario.turboRun None Scenario.quiet))
     = BASE_SPEED * TURBO_SPEED_MULTIPLIER
  /\ ~ BASE_SPEED * TURBO_SPEED_MULTIPLIER == BASE_SPEED.
Proof.
  repeat split. intro H. vm_compute in H. discriminate H.
Qed.

(** ** A frame without a ready video *)

(** C10. In a frame whose video is not ready, step 1 is skipped: the stored
    Vision State and the scroll speed are those of the previous frame (a
    turbo speed stays), the player enters the physics as the previous frame
    left it, and physics, spawn and collision run if the phase is PLAYING;
    a neutral reading would instead have set the speed to BASE_SPEED. *)
Theorem video_not_ready_skips_step1 (c : Component) (rnd : Random) :
  processVision c None = c
  /\ visionState (tick c None rnd) = visionState c
  /\ currentSpeed (gameRef (tick c None rnd)) = currentSpeed (gameRef c)
  /\ (currentSpeed (gameRef c) = BASE_SPEED * TURBO_SPEED_MULTIPLIER ->
      currentSpeed (gameRef (tick c None rnd))
      = BASE_SPEED * TURBO_SPEED_MULTIPLIER)
  /\ (gameState c = PLAYING ->
      tick c None rnd = updatePhysics c rnd
      /\ player (gameRef (tick c None rnd)) = gravity (player (gameRef c))
      /\ obstacles (gameRef (tick c None rnd))
         = filter Spec.live (Spec.movedObstacles (gameRef c) rnd)
      /\ frameCount (gameRef (tick c None rnd))
         = (frameCount (gameRef c) + 1)%Z
      /\ currentSpeed (gameRef (tick c (Some Scenario.neutral) rnd))
         = BASE_SPEED)
  /\ (gameState c <> PLAYING -> tick c None rnd = c).
Proof.
  assert (Hspeed :
    currentSpeed (gameRef (tick c None rnd)) = currentSpeed (gameRef c)).
  { unfold tick. cbn [processVision].
    now destruct (negb (GameState_eqb (gameState c) PLAYING)). }
  split; [reflexivity|]. split.
  { unfold tick. cbn [processVision].
    now destruct (negb (GameState_eqb (gameState c) PLAYING)). }
  split; [exact Hspeed|]. split; [intro H; now rewrite Hspeed|]. split.
  - intro playing. rewrite !(tick_playing _ _ _ playing).
    cbn [processVision]. split; [reflexivity|]. split; [reflexivity|].
    split; [apply updatePhysics_obstacles|]. split; [reflexivity|].
    rewrite updatePhysics_speed. unfold handleInputs. now rewrite playing.
  - intro paused. now rewrite (tick_paused _ _ _ paused).
Qed.

(** A frame without a ready video after a frame at turbo speed. *)
Lemma video_not_ready_skips_step1_witness :
  currentSpeed (gameRef Scenario.turboRun)
  = BASE_SPEED * TURBO_SPEED_MULTIPLIER
  /\ gameState Scenario.turboRun = PLAYING
  /\ currentSpeed (gameRef (tick Scenario.turboRun None Scenario.quiet))
     = BASE_SPEED * TURBO_SPEED_MULTIPLIER
  /\ tick Scenario.turboRun None Scenario.quiet
     = updatePhysics Scenario.turboRun Scenario.quiet.
Proof.
  destruct (video_not_ready_skips_step1 Scenario.turboRun Scenario.quiet)
    as (_ & _ & _ & Hturbo & Hplaying & _).
  split; [reflexivity|]. split; [reflexivity|]. split.
  - apply Hturbo. reflexivity.
  - apply Hplaying. reflexivity.
Defined.

(** ** The ground line *)

Create HintDb ground discriminated.

Lemma reachable_run (events : list Event) :
  forall c, reachable c -> reachable (run c events).
Proof.
  induction events as [|e rest IH]; intros c Hc; [exact Hc|].
  apply IH. now constructor.
Qed.

Lemma grounded_initial : Spec.grounded initialPlayer.
Proof.
  unfold Spec.grounded, Spec.feet. cbn.
  unfold GROUND_Y, NORMAL_HEIGHT. split; intros _; lra.
Qed.

(** A jump starts from the ground. *)
Lemma grounded_jump (vState : VisionState) (p : Player) :
  Spec.grounded p -> Spec.grounded (jump vState p).
Proof.
  intro H. unfold jump.
  destruct (GestureType_eqb (gesture vState) OPEN_PALM); cbn [andb];
    [|exact H].
  destruct (isJumping p) eqn:Hj; cbn [negb]; [exact H|].
  destruct H as [_ Hground].
  split; cbn; intros _; apply Hground; exact Hj.
Qed.

(** Ducking and standing up put the feet on the line. *)
Lemma grounded_duck (p : Player) : Spec.grounded (duck p).
Proof.
  unfold Spec.grounded, Spec.feet. cbn.
  unfold GROUND_Y, DUCK_HEIGHT. split; intros _; lra.
Qed.

Lemma grounded_standUp (p : Player) :
  Spec.grounded p -> Spec.grounded (standUp p).
Proof.
  intro H. unfold standUp. destruct (isDucking p); [|exact H].
  unfold Spec.grounded, Spec.feet. cbn.
  unfold GROUND_Y, NORMAL_HEIGHT. split; intros _; lra.
Qed.

#[local] Hint Resolve grounded_initial grounded_jump grounded_duck
  grounded_standUp : ground.

Lemma grounded_playerControl (vState : VisionState) (p : Player) :
  Spec.grounded p -> Spec.grounded (playerControl vState p).
Proof.
  intro H. unfold playerControl.
  destruct (GestureType_eqb (gesture vState) CLOSED_FIST);
    auto with ground.
Qed.

(** The integration, from a player that satisfies the invariant: the feet
    end on or above the line, or they were above it and moving down. *)
Lemma gravity_feet (p : Player) :
  Spec.grounded p ->
  Spec.feet (gravity p) <= GROUND_Y
  \/ (Spec.feet p < GROUND_Y /\ 0 < vy p
      /\ Spec.feet (gravity p) < GROUND_Y + vy p).
Proof.
  intros [Hup _]. unfold gravity. rewrite Qltb_shift, !Qltb_dec.
  fold (Spec.feet p).
  destruct (Qlt_le_dec (Spec.feet p) GROUND_Y) as [Hf | Hf];
    cbn [orb].
  - destruct (Qlt_le_dec 0 (vy p)) as [Hv | Hv].
    + right. unfold Spec.feet in *. cbn. repeat split; lra.
    + left. unfold Spec.feet in *. cbn. lra.
  - destruct (Qlt_le_dec (vy p) 0) as [Hv | Hv].
    + left. specialize (Hup Hv). unfold Spec.feet in *. cbn. lra.
    + left. unfold Spec.feet. cbn. lra.
Qed.

Lemma grounded_gravity (p : Player) :
  Spec.grounded p -> Spec.grounded (gravity p).
Proof.
  intros [Hup Hground]. unfold gravity. rewrite Qltb_shift, !Qltb_dec.
  fold (Spec.feet p).
  destruct (Qlt_le_dec (Spec.feet p) GROUND_Y) as [Hf | Hf];
    cbn [orb].
  - split; [|discriminate].
    unfold Spec.feet in *. cbn. unfold GRAVITY. intro Hv. lra.
  - destruct (Qlt_le_dec (vy p) 0) as [Hv | Hv].
    + split; [|discriminate].
      specialize (Hup Hv). unfold Spec.feet in *. cbn. intros _. lra.
    + split; unfold Spec.feet; cbn; intros _; lra.
Qed.

Lemma grounded_processVision (c : Component)
    (video : option VisionState) :
  Spec.grounded (player (gameRef c)) ->
  Spec.grounded (player (gameRef (processVision c video))).
Proof.
  intro H. destruct video as [v|]; [|exact H].
  cbn [processVision]. unfold handleInputs.
  destruct (gameState c); cbn [gameRef player]; auto.
  - now apply grounded_playerControl.
  - destruct (GestureType_eqb (gesture v) THUMBS_UP); cbn; auto with ground.
Qed.

(** Between two events the player of a reachable state has its feet on or
    above the line whenever it is on the ground or moving up. *)
Lemma reachable_grounded (c : Component) :
  reachable c -> Spec.grounded (player (gameRef c)).
Proof.
  induction 1 as [|c e Hc IH]; [exact grounded_initial|].
  destruct e as [video rnd | i o]; cbn [step].
  - unfold tick.
    destruct (negb (GameState_eqb (gameState c) PLAYING)).
    + now apply grounded_processVision.
    + cbn [updatePhysics gameRef player].
      now apply grounded_gravity, grounded_processVision.
  - unfold commentaryArrives.
    now destruct (nth_error (inFlight c) i).
Qed.

Lemma duckRelease_playing :
  gameState (run initialComponent Scenario.duckRelease) = PLAYING.
Proof. vm_compute. reflexivity. Qed.

(** C3, as the code has it. In a PLAYING frame of a reachable state, right
    after the vertical integration either the feet are on or above the
    ground line, or the step moved a falling player whose feet were above
    the line across it, and the feet are then below the line by less than
    the velocity of that step; a player that the step lands has its feet
    exactly on the line. *)
Theorem feet_after_integration (c : Component)
    (video : option VisionState) (rnd : Random)
    (reach : reachable c) (playing : gameState c = PLAYING) :
  let p := player (gameRef (processVision c video)) in
  let p' := player (gameRef (tick c video rnd)) in
  (Spec.feet p' <= GROUND_Y
   \/ (Spec.feet p < GROUND_Y /\ 0 < vy p
       /\ Spec.feet p' < GROUND_Y + vy p))
  /\ (isJumping p' = false -> Spec.feet p' == GROUND_Y).
Proof.
  intros p p'. subst p'.
  rewrite (tick_playing _ _ _ playing).
  cbn [updatePhysics gameRef player]. fold p.
  split.
  - apply gravity_feet. subst p.
    now apply grounded_processVision, reachable_grounded.
  - unfold gravity.
    destruct (Qltb (y p) (GROUND_Y - height p) || Qltb (vy p) 0);
      [discriminate|].
    intros _. unfold Spec.feet. cbn. lra.
Qed.

(** The frame on which the released player crosses the line. *)
Lemma feet_after_integration_witness :
  reachable (run initialComponent Scenario.duckRelease)
  /\ gameState (run initialComponent Scenario.duckRelease) = PLAYING
  /\ Spec.feet
       (player (gameRef
          (tick (run initialComponent Scenario.duckRelease)
             (Some (Scenario.reading 1 NONE)) Scenario.quiet)))
     < GROUND_Y
       + vy (player (gameRef
           (processVision (run initialComponent Scenario.duckRelease)
              (Some (Scenario.reading 1 NONE))))).
Proof.
  split; [apply reachable_run; constructor|].
  split; [exact duckRelease_playing|].
  destruct (feet_after_integration
              (run initialComponent Scenario.duckRelease)
              (Some (Scenario.reading 1 NONE)) Scenario.quiet
              (reachable_run _ _ reachable_initial) duckRelease_playing)
    as [[Habove | (_ & _ & Hbelow)] _].
  - vm_compute. reflexivity.
  - exact Hbelow.
Defined.

(** C3, as stated, fails: start, jump, hold a fist for four frames and
    release it; four frames later the integration leaves the feet at 351,
    below the ground line at 350. *)
Lemma feet_below_ground_counterexample :
  reachable (run initialComponent Scenario.duckRelease)
  /\ gameState (run initialComponent Scenario.duckRelease) = PLAYING
  /\ Spec.feet
       (player (gameRef
          (tick (run initialComponent Scenario.duckRelease)
             (Some (Scenario.reading 1 NONE)) Scenario.quiet)))
     == 351
  /\ ~ (Spec.feet
          (player (gameRef
             (tick (run initialComponent Scenario.duckRelease)
                (Some (Scenario.reading 1 NONE)) Scenario.quiet)))
        <= GROUND_Y).
Proof.
  split; [apply reachable_run; constructor|].
  split; [exact duckRelease_playing|].
  split; [vm_compute; reflexivity|].
  intro H. vm_compute in H. apply H. reflexivity.
Qed.

(** ** Commentary *)

Lemma firstSession_inFlight :
  nth_error (inFlight (run initialComponent Scenario.firstSession)) 0
  = Some 0%Z.
Proof. vm_compute. reflexivity. Qed.

(** C8, as the code has it. A commentary response is written to the
    displayed commentary field when it arrives, whatever the phase and
    whichever session requested it, and touches nothing else: the text shown
    is that of the response that arrived last.  A reset empties the text at
    the moment of the reset and leaves the pending requests pending. *)
Theorem commentary_last_writer (c : Component) (i : nat)
    (o : Gemini.Outcome) (finalScore : Z)
    (pending : nth_error (inFlight c) i = Some finalScore) :
  aiMessage (commentaryArrives c i o)
  = Gemini.generateGameOverMessage finalScore o
  /\ gameState (commentaryArrives c i o) = gameState c
  /\ gameRef (commentaryArrives c i o) = gameRef c
  /\ scoreState (commentaryArrives c i o) = scoreState c
  /\ aiMessage (resetGame c) = EmptyString
  /\ inFlight (resetGame c) = inFlight c
  /\ aiMessage (commentaryArrives (resetGame c) i o)
     = Gemini.generateGameOverMessage finalScore o.
Proof.
  unfold commentaryArrives. cbn [resetGame inFlight].
  rewrite pending. cbn. repeat split; reflexivity.
Qed.

(** The request of the first session, answered after the restart. *)
Lemma commentary_last_writer_witness :
  nth_error (inFlight (run initialComponent Scenario.firstSession)) 0
  = Some 0%Z
  /\ aiMessage
       (commentaryArrives
          (resetGame (run initialComponent Scenario.firstSession)) 0
          Gemini.ApiError)
     = "Game Over! Score: 0"%string.
Proof.
  split; [exact firstSession_inFlight|].
  apply (commentary_last_writer
           (run initialComponent Scenario.firstSession) 0 Gemini.ApiError
           0%Z firstSession_inFlight).
Defined.

(** C8, as stated, fails: the first session ends at score 0 and its request
    is still pending when the restart begins a second session; that one ends
    at score 10 and its response is shown; the late response of the first
    session then replaces it, so the text shown in the second GAME_OVER is
    the one for score 0. *)
Lemma stale_commentary_counterexample :
  gameState (run initialComponent Scenario.firstSession) = GAME_OVER
  /\ inFlight (run initialComponent Scenario.firstSession) = [0%Z]
  /\ gameState
       (run initialComponent
          (Scenario.firstSession ++ [Scenario.look THUMBS_UP])) = PLAYING
  /\ inFlight
       (run initialComponent
          (Scenario.firstSession ++ [Scenario.look THUMBS_UP])) = [0%Z]
  /\ gameState
       (run initialComponent
          (Scenario.firstSession ++ Scenario.secondSession)) = GAME_OVER
  /\ score
       (gameRef
          (run initialComponent
             (Scenario.firstSession ++ Scenario.secondSession))) = 10%Z
  /\ inFlight
       (run initialComponent
          (Scenario.firstSession ++ Scenario.secondSession))
     = [0%Z; 10%Z]
  /\ aiMessage
       (run initialComponent
          (Scenario.firstSession ++ Scenario.secondSession
             ++ [Commentary 1 Gemini.ApiError]))
     = "Game Over! Score: 10"%string
  /\ gameState (run initialComponent Scenario.staleRun) = GAME_OVER
  /\ score (gameRef (run initialComponent Scenario.staleRun)) = 10%Z
  /\ aiMessage (run initialComponent Scenario.staleRun)
     = "Game Over! Score: 0"%string.
Proof.
  repeat (split; [vm_compute; reflexivity|]).
  vm_compute. reflexivity.
Qed.

(** ** The ground line on binary64 numbers *)

(** Start, jump, a fist for four frames, then five frames without it: the
    feet end at 351 on binary64 numbers too. *)
Example binary64_duck_release :
  Binary64.feet
    (Binary64.frames
       (OPEN_PALM :: repeat CLOSED_FIST 4 ++ repeat NONE 5)
       Binary64.initialBody)
  = 351%float.
Proof. vm_compute. reflexivity. Qed.

(** A plain jump.  In exact arithmetic the feet are back on the line, and
    not below it, after 41 frames in the air, and the next frame lands. *)
Example exact_plain_jump :
  forallb
    (fun n =>
       negb
         (Qltb GROUND_Y
            (Spec.feet
               (player (gameRef
                  (run initialComponent
                     (Scenario.show OPEN_PALM :: Scenario.show OPEN_PALM
                        :: repeat (Scenario.show NONE) n)))))))
    (seq 0 42)
  = true.
Proof. vm_compute. reflexivity. Qed.

(** On binary64 numbers the sum of the 41 steps is just short of the line,
    and the 42nd frame moves the feet a full step below it. *)
Example binary64_plain_jump :
  (Binary64.GROUND_Y + 12
   <? Binary64.feet
        (Binary64.frames (OPEN_PALM :: repeat NONE 41)
           Binary64.initialBody))%float
  = true.
Proof. vm_compute. reflexivity. Qed.

(** ** More on the classifier *)

Lemma detectGesture_None_iff (hand : list Vision.NormalizedLandmark) :
  Vision.detectGesture hand = None <-> (List.length hand < 21)%nat.
Proof.
  split.
  - intro H. destruct (le_lt_dec 21 (List.length hand)) as [Hc | Hc];
      [|exact Hc].
    rewrite (detectGesture_unfold hand Hc) in H. discriminate H.
  - intro H.
    assert (H20 : nth_error hand 20 = None) by (apply nth_error_None; lia).
    unfold Vision.detectGesture.
    repeat match goal with
    | |- obind (nth_error hand ?i) _ = None =>
        destruct (nth_error hand i) eqn:?; cbn [obind];
        try reflexivity; try congruence
    end.
Qed.

(** [detectGesture] throws exactly on a hand with fewer than 21 landmarks:
    landmark 20 is the last one it reads. *)
Theorem detectGesture_throws_iff (hand : list Vision.NormalizedLandmark) :
  Vision.detectGesture hand = None <-> (List.length hand < 21)%nat.
Proof. exact (detectGesture_None_iff hand). Qed.

(** [detectGesture] reads only the vertical coordinates: a change of the
    landmarks that keeps every [y], such as mirroring the image, keeps the
    gesture. *)
Theorem detectGesture_reads_y_only
    (f : Vision.NormalizedLandmark -> Vision.NormalizedLandmark)
    (hand : list Vision.NormalizedLandmark)
    (keepsY : forall l, Vision.y (f l) = Vision.y l) :
  Vision.detectGesture (map f hand) = Vision.detectGesture hand.
Proof.
  unfold Vision.detectGesture. rewrite !nth_error_map.
  repeat match goal with
  | |- obind (option_map f (nth_error hand ?i)) _ = _ =>
      destruct (nth_error hand i); cbn [obind option_map];
      try reflexivity
  end.
  unfold Vision.isExtended. rewrite !keepsY. reflexivity.
Qed.

(** The mirror image of an open hand is an open hand. *)
Lemma detectGesture_reads_y_only_witness :
  (forall l,
     Vision.y
       {| Vision.x := 1 - Vision.x l; Vision.y := Vision.y l;
          Vision.z := Vision.z l |}
     = Vision.y l)
  /\ Vision.detectGesture
       (map (fun l =>
               {| Vision.x := 1 - Vision.x l; Vision.y := Vision.y l;
                  Vision.z := Vision.z l |})
          Scenario.openHand)
     = Vision.detectGesture Scenario.openHand.
Proof.
  split; [reflexivity|].
  apply (detectGesture_reads_y_only
           (fun l =>
              {| Vision.x := 1 - Vision.x l; Vision.y := Vision.y l;
                 Vision.z := Vision.z l |})
           Scenario.openHand).
  reflexivity.
Defined.

(** The loop over the hands stops at the first hand whose gesture is not
    NONE. *)
Lemma primaryGesture_first
    (pre post : list (list Vision.NormalizedLandmark))
    (hand : list Vision.NormalizedLandmark) (g : GestureType) :
  Forall (fun h => Vision.detectGesture h = Some NONE) pre ->
  Vision.detectGesture hand = Some g -> g <> NONE ->
  Vision.primaryGesture (pre ++ hand :: post) = Some g.
Proof.
  intros Hpre Hhand Hg.
  induction Hpre as [|h rest Hh _ IH]; cbn [app Vision.primaryGesture].
  - rewrite Hhand. cbn [obind]. destruct g; try reflexivity. now elim Hg.
  - rewrite Hh. cbn. exact IH.
Qed.

(** The loop throws at the first incomplete hand it reaches. *)
Lemma primaryGesture_throws
    (pre post : list (list Vision.NormalizedLandmark))
    (hand : list Vision.NormalizedLandmark) :
  Forall (fun h => Vision.detectGesture h = Some NONE) pre ->
  (List.length hand < 21)%nat ->
  Vision.primaryGesture (pre ++ hand :: post) = None.
Proof.
  intros Hpre Hhand.
  induction Hpre as [|h rest Hh _ IH]; cbn [app Vision.primaryGesture].
  - apply detectGesture_None_iff in Hhand. now rewrite Hhand.
  - rewrite Hh. cbn. exact IH.
Qed.

(** On complete hands the loop ends with NONE exactly when every hand is
    classified NONE. *)
Lemma primaryGesture_none_iff
    (hands : list (list Vision.NormalizedLandmark)) :
  Forall (fun h => (21 <= List.length h)%nat) hands ->
  (Vision.primaryGesture hands = Some NONE
   <-> Forall (fun h => Vision.detectGesture h = Some NONE) hands).
Proof.
  induction 1 as [|h rest Hh _ IH]; cbn [Vision.primaryGesture].
  - split; [constructor | reflexivity].
  - destruct (Vision.detectGesture h) as [g|] eqn:Hg.
    + cbn [obind]. destruct g; cbn [negb GestureType_eqb].
      * rewrite IH. split.
        -- intro Hrest. now constructor.
        -- intro Hall. now inversion Hall.
      * split; [discriminate | intro Hall; inversion Hall; congruence].
      * split; [discriminate | intro Hall; inversion Hall; congruence].
      * split; [discriminate | intro Hall; inversion Hall; congruence].
    + apply detectGesture_None_iff in Hg. lia.
Qed.

(** [processVideoFrame] reports the gesture of the first hand that is not
    classified NONE, with the number of all the hands; the hands after it
    are not classified, so they cannot make the call throw. *)
Theorem processVideoFrame_first_gesture
    (pre post : list (list Vision.NormalizedLandmark))
    (hand : list Vision.NormalizedLandmark) (g : GestureType)
    (before : Forall (fun h => Vision.detectGesture h = Some NONE) pre)
    (found : Vision.detectGesture hand = Some g)
    (significant : g <> NONE) :
  Vision.processVideoFrame (Some (pre ++ hand :: post))
  = Some {| handCount := List.length (pre ++ hand :: post);
            gesture := g;
            isTurbo := (2 <=? List.length (pre ++ hand :: post))%nat |}.
Proof.
  unfold Vision.processVideoFrame.
  now rewrite (primaryGesture_first pre post hand g before found significant).
Qed.

(** A flat hand, then a thumb, then a hand cut short. *)
Lemma processVideoFrame_first_gesture_witness :
  Forall (fun h => Vision.detectGesture h = Some NONE) []
  /\ Vision.detectGesture Scenario.thumbHand = Some THUMBS_UP
  /\ THUMBS_UP <> NONE
  /\ Vision.processVideoFrame
       (Some ([] ++ Scenario.thumbHand
                :: [firstn 5 Scenario.flatHand; Scenario.openHand]))
     = Some {| handCount := 3; gesture := THUMBS_UP; isTurbo := true |}.
Proof.
  split; [constructor|]. split; [reflexivity|]. split; [discriminate|].
  apply (processVideoFrame_first_gesture []
           [firstn 5 Scenario.flatHand; Scenario.openHand]
           Scenario.thumbHand THUMBS_UP).
  - constructor.
  - reflexivity.
  - discriminate.
Defined.

(** [processVideoFrame] throws when the first hand that is not classified
    NONE is a hand with fewer than 21 landmarks. *)
Theorem processVideoFrame_throws
    (pre post : list (list Vision.NormalizedLandmark))
    (hand : list Vision.NormalizedLandmark)
    (before : Forall (fun h => Vision.detectGesture h = Some NONE) pre)
    (short : (List.length hand < 21)%nat) :
  Vision.processVideoFrame (Some (pre ++ hand :: post)) = None.
Proof.
  unfold Vision.processVideoFrame.
  now rewrite (primaryGesture_throws pre post hand before short).
Qed.

Lemma processVideoFrame_throws_witness :
  Forall (fun h => Vision.detectGesture h = Some NONE) []
  /\ (List.length (firstn 5 Scenario.flatHand) < 21)%nat
  /\ Vision.processVideoFrame
       (Some ([] ++ firstn 5 Scenario.flatHand :: [Scenario.openHand]))
     = None.
Proof.
  split; [constructor|]. split; [simpl; lia|].
  apply (processVideoFrame_throws [] [Scenario.openHand]
           (firstn 5 Scenario.flatHand)).
  - constructor.
  - simpl. lia.
Defined.

(** On complete hands [processVideoFrame] returns a Vision State that counts
    the hands, and its gesture is NONE exactly when every hand is classified
    NONE. *)
Theorem processVideoFrame_none_iff
    (hands : list (list Vision.NormalizedLandmark))
    (complete : Forall (fun h => (21 <= List.length h)%nat) hands) :
  exists v,
    Vision.processVideoFrame (Some hands) = Some v
    /\ handCount v = List.length hands
    /\ isTurbo v = (2 <=? List.length hands)%nat
    /\ (gesture v = NONE
        <-> Forall (fun h => Vision.detectGesture h = Some NONE) hands).
Proof.
  destruct (primaryGesture_total hands complete) as [g Hg].
  unfold Vision.processVideoFrame. rewrite Hg. cbn [obind].
  eexists. split; [reflexivity|]. cbn [handCount isTurbo gesture].
  split; [reflexivity|]. split; [reflexivity|].
  rewrite <- (primaryGesture_none_iff hands complete), Hg.
  split; [now intros -> | now intros [= ->]].
Qed.

Lemma processVideoFrame_none_iff_witness :
  Forall (fun h => (21 <= List.length h)%nat)
    [Scenario.flatHand; Scenario.openHand]
  /\ exists v,
       Vision.processVideoFrame
         (Some [Scenario.flatHand; Scenario.openHand]) = Some v
       /\ handCount v = 2%nat
       /\ isTurbo v = true
       /\ (gesture v = NONE
           <-> Forall (fun h => Vision.detectGesture h = Some NONE)
                 [Scenario.flatHand; Scenario.openHand]).
Proof.
  assert (H : Forall (fun h => (21 <= List.length h)%nat)
                [Scenario.flatHand; Scenario.openHand]).
  { repeat constructor; simpl; lia. }
  split; [exact H|].
  apply (processVideoFrame_none_iff
           [Scenario.flatHand; Scenario.openHand] H).
Defined.

(** ** The commentary message *)

Lemma string_length_append (s t : string) :
  String.length (s ++ t)
  = (String.length s + String.length t)%nat.
Proof. induction s as [|c s IH]; cbn; [reflexivity | now rewrite IH]. Qed.

Lemma string_append_cancel_r (t : string) :
  forall s1 s2 : string, (s1 ++ t = s2 ++ t)%string -> s1 = s2.
Proof.
  induction s1 as [|c s1 IH]; intros [|c2 s2] H; cbn in H.
  - reflexivity.
  - apply (f_equal String.length) in H. cbn in H.
    rewrite string_length_append in H. lia.
  - apply (f_equal String.length) in H. cbn in H.
    rewrite string_length_append in H. lia.
  - injection H as -> H. f_equal. now apply IH.
Qed.

(** The decimal form of a score determines the score. *)
Lemma showScore_inj (a b : Z) :
  Gemini.showScore a = Gemini.showScore b -> a = b.
Proof.
  unfold Gemini.showScore. intro H.
  apply (f_equal NilZero.int_of_string) in H.
  assert (Hnz : forall z,
            Z.to_int z <> Decimal.Pos Decimal.Nil
            /\ Z.to_int z <> Decimal.Neg Decimal.Nil).
  { intros [|p|p]; cbn; split; try discriminate;
      intros [= Hp]; now apply (Unsigned.to_uint_nonnil p). }
  rewrite !NilZero.isi in H by apply Hnz.
  injection H as H. now apply DecimalZ.to_int_inj.
Qed.

(** [generateGameOverMessage] never returns the empty string: once a
    response has arrived, the overlay no longer falls back on its
    placeholder. *)
Theorem generateGameOverMessage_nonempty (score : Z) (o : Gemini.Outcome) :
  Gemini.generateGameOverMessage score o <> EmptyString.
Proof.
  destruct o as [|[[|c s]|]|]; cbn; discriminate.
Qed.

(** Unless the model replied with a text of its own, the message tells the
    score: two scores with the same message are the same score. *)
Theorem generateGameOverMessage_tells_score (a b : Z) (o : Gemini.Outcome)
    (built : forall c s, o <> Gemini.Response (Some (String c s)))
    (same : Gemini.generateGameOverMessage a o
            = Gemini.generateGameOverMessage b o) :
  a = b.
Proof.
  destruct o as [|[[|c s]|]|]; cbn in same.
  - injection same as same.
    apply string_append_cancel_r in same. now apply showScore_inj.
  - injection same as same. now apply showScore_inj.
  - now elim (built c s).
  - injection same as same. now apply showScore_inj.
  - injection same as same. now apply showScore_inj.
Qed.

Lemma generateGameOverMessage_tells_score_witness :
  (forall c s, Gemini.ApiError <> Gemini.Response (Some (String c s)))
  /\ (Gemini.generateGameOverMessage 10 Gemini.ApiError
      = Gemini.generateGameOverMessage (5 + 5) Gemini.ApiError)
  /\ 10%Z = (5 + 5)%Z.
Proof.
  assert (H : forall c s,
            Gemini.ApiError <> Gemini.Response (Some (String c s)))
    by discriminate.
  split; [exact H|]. split; [reflexivity|].
  apply (generateGameOverMessage_tells_score 10 (5 + 5) Gemini.ApiError H).
  reflexivity.
Defined.

(** ** The phases *)

Lemma commentaryArrives_gameState (c : Component) (i : nat)
    (o : Gemini.Outcome) :
  gameState (commentaryArrives c i o) = gameState c.
Proof.
  unfold commentaryArrives. now destruct (nth_error (inFlight c) i).
Qed.

(** The phase changes in three ways only: from START to PLAYING on a fresh
    reading of OPEN_PALM, from GAME_OVER to PLAYING on a fresh reading of
    THUMBS_UP, and from PLAYING to GAME_OVER on a frame that leaves the
    player overlapping a moved obstacle.  START is never entered again, and
    the arrival of a commentary changes no phase. *)
Theorem phase_transitions (c : Component) (e : Event)
    (changed : gameState (step c e) <> gameState c) :
  (gameState c = START /\ gameState (step c e) = PLAYING
   /\ exists vState rnd,
        e = Frame (Some vState) rnd /\ gesture vState = OPEN_PALM)
  \/ (gameState c = GAME_OVER /\ gameState (step c e) = PLAYING
      /\ exists vState rnd,
           e = Frame (Some vState) rnd /\ gesture vState = THUMBS_UP)
  \/ (gameState c = PLAYING /\ gameState (step c e) = GAME_OVER
      /\ exists video rnd,
           e = Frame video rnd
           /\ exists obs,
                In obs
                  (Spec.movedObstacles (gameRef (processVision c video)) rnd)
                /\ collides (player (gameRef (step c e))) obs = true).
Proof.
  destruct e as [video rnd | i o]; cbn [step] in *;
    [|now rewrite commentaryArrives_gameState in changed].
  destruct (gameState c) eqn:Hphase.
  - left. rewrite tick_paused in * by congruence.
    destruct video as [v|]; cbn [processVision] in *; [|congruence].
    unfold handleInputs in *. rewrite Hphase in *. cbn [gameState] in *.
    destruct (GestureType_eqb (gesture v) OPEN_PALM) eqn:Hg; [|congruence].
    apply GestureType_eqb_eq in Hg. repeat split. now exists v, rnd.
  - right. right. rewrite (tick_playing _ _ _ Hphase) in *.
    destruct (processVision_playing c video Hphase) as (Hp1 & _).
    assert (Hover : gameState (updatePhysics (processVision c video) rnd)
                    = GAME_OVER).
    { cbn [updatePhysics gameState] in *.
      destruct (gameOvers _); [congruence | reflexivity]. }
    split; [reflexivity|]. split; [exact Hover|].
    exists video, rnd. split; [reflexivity|].
    now apply updatePhysics_game_over in Hover.
  - right. left. rewrite tick_paused in * by congruence.
    destruct video as [v|]; cbn [processVision] in *; [|congruence].
    unfold handleInputs in *. rewrite Hphase in *.
    destruct (GestureType_eqb (gesture v) THUMBS_UP) eqn:Hg;
      cbn [resetGame gameState] in *; [|congruence].
    apply GestureType_eqb_eq in Hg. repeat split. now exists v, rnd.
Qed.

Lemma phase_transitions_witness :
  gameState (step initialComponent (Scenario.show OPEN_PALM))
  <> gameState initialComponent
  /\ gameState (step initialComponent (Scenario.show OPEN_PALM)) = PLAYING.
Proof.
  assert (H : gameState (step initialComponent (Scenario.show OPEN_PALM))
              <> gameState initialComponent) by discriminate.
  split; [exact H|].
  destruct (phase_transitions initialComponent (Scenario.show OPEN_PALM) H)
    as [(_ & Hp & _) | [(Hc & _) | (Hc & _)]];
    [exact Hp | discriminate Hc | discriminate Hc].
Defined.

(** Outside PLAYING a frame that is not the reset changes nothing of the
    game: no physics, no spawn, no score, no request, no commentary. *)
Theorem paused_frame_frozen (c : Component) (video : option VisionState)
    (rnd : Random)
    (paused : gameState c <> PLAYING)
    (noReset : Spec.isReset c (Frame video rnd) = false) :
  gameRef (tick c video rnd) = gameRef c
  /\ scoreState (tick c video rnd) = scoreState c
  /\ aiMessage (tick c video rnd) = aiMessage c
  /\ inFlight (tick c video rnd) = inFlight c.
Proof.
  rewrite (tick_paused _ _ _ paused).
  destruct video as [v|]; cbn [processVision]; [|auto].
  unfold handleInputs. cbn [Spec.isReset] in noReset.
  destruct (gameState c); cbn in *; auto.
  - now elim paused.
  - rewrite noReset. cbn. auto.
Qed.

Lemma paused_frame_frozen_witness :
  gameState (run initialComponent Scenario.firstSession) <> PLAYING
  /\ Spec.isReset (run initialComponent Scenario.firstSession)
       (Scenario.look OPEN_PALM) = false
  /\ gameRef
       (tick (run initialComponent Scenario.firstSession)
          (Some (Scenario.reading 1 OPEN_PALM)) Scenario.cactus)
     = gameRef (run initialComponent Scenario.firstSession).
Proof.
  assert (H1 : gameState (run initialComponent Scenario.firstSession)
               <> PLAYING)
    by (rewrite firstSession_game_over; discriminate).
  assert (H2 : Spec.isReset (run initialComponent Scenario.firstSession)
                 (Scenario.look OPEN_PALM) = false)
    by (vm_compute; reflexivity).
  split; [exact H1|]. split; [exact H2|].
  apply (paused_frame_frozen (run initialComponent Scenario.firstSession)
           (Some (Scenario.reading 1 OPEN_PALM)) Scenario.cactus H1 H2).
Defined.

(** ** More on the player control *)

(** No double jump: while the player is airborne an open palm does what no
    gesture does. *)
Theorem open_palm_airborne_ignored (c : Component) (hands : nat)
    (turbo : bool) (rnd : Random)
    (playing : gameState c = PLAYING)
    (airborne : isJumping (player (gameRef c)) = true) :
  gameRef
    (tick c
       (Some {| handCount := hands; gesture := OPEN_PALM;
                isTurbo := turbo |}) rnd)
  = gameRef
      (tick c
         (Some {| handCount := hands; gesture := NONE; isTurbo := turbo |})
         rnd)
  /\ gameState
       (tick c
          (Some {| handCount := hands; gesture := OPEN_PALM;
                   isTurbo := turbo |}) rnd)
     = gameState
         (tick c
            (Some {| handCount := hands; gesture := NONE;
                     isTurbo := turbo |}) rnd).
Proof.
  rewrite !(tick_playing _ _ _ playing). cbn [processVision].
  unfold handleInputs. rewrite playing.
  unfold playerControl, jump. cbn [gesture GestureType_eqb isTurbo].
  rewrite airborne. cbn [negb andb]. split; reflexivity.
Qed.

Lemma duckRelease_airborne :
  isJumping (player (gameRef (run initialComponent Scenario.duckRelease)))
  = true.
Proof. vm_compute. reflexivity. Qed.

Lemma open_palm_airborne_ignored_witness :
  gameState (run initialComponent Scenario.duckRelease) = PLAYING
  /\ isJumping (player (gameRef (run initialComponent Scenario.duckRelease)))
     = true
  /\ gameRef
       (tick (run initialComponent Scenario.duckRelease)
          (Some (Scenario.reading 1 OPEN_PALM)) Scenario.quiet)
     = gameRef
         (tick (run initialComponent Scenario.duckRelease)
            (Some (Scenario.reading 1 NONE)) Scenario.quiet).
Proof.
  split; [exact duckRelease_playing|].
  split; [exact duckRelease_airborne|].
  apply (open_palm_airborne_ignored
           (run initialComponent Scenario.duckRelease) 1 false
           Scenario.quiet duckRelease_playing duckRelease_airborne).
Defined.

(** A PLAYING frame that reads a fist leaves the player ducking, at the
    duck height, with the feet on or above the ground line, whatever the
    player was doing. *)
Theorem fist_frame_feet (c : Component) (vState : VisionState)
    (rnd : Random)
    (playing : gameState c = PLAYING)
    (fist : gesture vState = CLOSED_FIST) :
  Spec.feet (player (gameRef (tick c (Some vState) rnd))) <= GROUND_Y
  /\ height (player (gameRef (tick c (Some vState) rnd))) = DUCK_HEIGHT
  /\ isDucking (player (gameRef (tick c (Some vState) rnd))) = true.
Proof.
  rewrite (tick_playing _ _ _ playing).
  cbn [processVision updatePhysics gameRef player].
  unfold handleInputs. rewrite playing. cbn [gameRef player].
  rewrite (playerControl_fist _ _ fist).
  set (p := player (gameRef c)).
  unfold gravity.
  replace (Qltb (y (duck p)) (GROUND_Y - height (duck p))) with false
    by reflexivity.
  cbn [orb]. destruct (Qltb (vy (duck p)) 0) eqn:Hv.
  - apply Qltb_lt in Hv. unfold Spec.feet. cbn in *.
    unfold GROUND_Y, DUCK_HEIGHT in *. repeat split. lra.
  - unfold Spec.feet. cbn. unfold GROUND_Y, DUCK_HEIGHT.
    repeat split. lra.
Qed.

Lemma fist_frame_feet_witness :
  gameState (run initialComponent Scenario.duckRelease) = PLAYING
  /\ gesture (Scenario.reading 1 CLOSED_FIST) = CLOSED_FIST
  /\ Spec.feet
       (player (gameRef
          (tick (run initialComponent Scenario.duckRelease)
             (Some (Scenario.reading 1 CLOSED_FIST)) Scenario.quiet)))
     <= GROUND_Y.
Proof.
  split; [exact duckRelease_playing|]. split; [reflexivity|].
  apply (fist_frame_feet (run initialComponent Scenario.duckRelease)
           (Scenario.reading 1 CLOSED_FIST) Scenario.quiet
           duckRelease_playing eq_refl).
Defined.

(** ** The field of obstacles *)

Section Sorting.

Variables (A : Type) (R : A -> A -> Prop).

Lemma StronglySorted_snoc (l : list A) (a : A) :
  StronglySorted R l -> Forall (fun b => R b a) l ->
  StronglySorted R (l ++ [a]).
Proof.
  induction 1 as [|b l Hl IH Hb]; intro Hall; cbn.
  - repeat constructor.
  - inversion Hall as [|? ? Hba Hrest]; subst. constructor.
    + now apply IH.
    + apply Forall_app. split; [exact Hb | now repeat constructor].
Qed.

Lemma StronglySorted_before_last (l : list A) (a : A) :
  StronglySorted R (l ++ [a]) -> Forall (fun b => R b a) l.
Proof.
  induction l as [|b l IH]; cbn; intro H; [constructor|].
  apply StronglySorted_inv in H. destruct H as [Hl Hb].
  apply Forall_app in Hb. destruct Hb as [_ Hba].
  constructor; [now inversion Hba | now apply IH].
Qed.

Lemma StronglySorted_filter (f : A -> bool) (l : list A) :
  StronglySorted R l -> StronglySorted R (filter f l).
Proof.
  induction 1 as [|a l Hl IH Ha]; cbn; [constructor|].
  destruct (f a); [|exact IH].
  constructor; [exact IH|].
  rewrite Forall_forall in *. intros b Hb.
  apply filter_In in Hb. now apply Ha.
Qed.

Lemma StronglySorted_cases (l : list A) (a b : A) :
  StronglySorted R l -> In a l -> In b l -> a = b \/ R a b \/ R b a.
Proof.
  induction 1 as [|c l Hl IH Hc]; intros Ha Hb; [now elim Ha|].
  rewrite Forall_forall in Hc.
  destruct Ha as [<- | Ha], Hb as [<- | Hb]; auto.
Qed.

End Sorting.

Lemma speedOk_bounds (speed : Q) :
  Invariant.speedOk speed -> 6 <= speed /\ speed <= 10.8.
Proof.
  intros [-> | ->]; unfold BASE_SPEED, TURBO_SPEED_MULTIPLIER; split; lra.
Qed.

Lemma obstacleShape_width (o : Obstacle) :
  Invariant.obstacleShape o -> 0 < width o /\ width o <= 40.
Proof.
  unfold Invariant.obstacleShape.
  destruct (type o); intros (_ & -> & _); split; lra.
Qed.

Lemma moveObstacle_shape (speed : Q) (o : Obstacle) :
  Invariant.obstacleShape o ->
  Invariant.obstacleShape (moveObstacle speed o).
Proof. intro H. exact H. Qed.

Lemma moveObstacle_spaced (speed : Q) (a b : Obstacle) :
  Invariant.spaced a b ->
  Invariant.spaced (moveObstacle speed a) (moveObstacle speed b).
Proof. unfold Invariant.spaced. cbn. intro H. lra. Qed.

(** What [spawnObstacle] returns: the obstacles it was given, then at most
    one new obstacle at the right edge. *)
Lemma spawnObstacle_cases (speed : Q) (rnd : Random)
    (obs : list Obstacle) :
  spawnObstacle speed rnd obs = obs
  \/ exists o,
       spawnObstacle speed rnd obs = obs ++ [o]
       /\ x o = CANVAS_WIDTH
       /\ Invariant.obstacleShape o
       /\ Qltb (spawnRoll rnd) 0.02 = true
       /\ (type o = BIRD <-> Qgtb (typeRoll rnd) 0.6 = true)
       /\ forall init lastObs,
            obs = init ++ [lastObs] ->
            250 + speed * 10 < CANVAS_WIDTH - x lastObs.
Proof.
  unfold spawnObstacle. cbv zeta.
  destruct (Qltb (spawnRoll rnd) 0.02) eqn:Hroll;
    [|left;
      match goal with
      | |- (if ?b then _ else _) = _ => now destruct b
      end].
  assert (Hnew :
    exists o,
      obs ++
        [{| obstacleEntity :=
              {| x := CANVAS_WIDTH;
                 y := match (if Qgtb (typeRoll rnd) 0.6
                             then BIRD else CACTUS) with
                      | BIRD => GROUND_Y - 90
                      | CACTUS => GROUND_Y - 40
                      end;
                 width := match (if Qgtb (typeRoll rnd) 0.6
                                 then BIRD else CACTUS) with
                          | BIRD => 40 | CACTUS => 30 end;
                 height := match (if Qgtb (typeRoll rnd) 0.6
                                  then BIRD else CACTUS) with
                           | BIRD => 30 | CACTUS => 40 end;
                 color := match (if Qgtb (typeRoll rnd) 0.6
                                 then BIRD else CACTUS) with
                          | BIRD => "#ff4444"
                          | CACTUS => "#ffaa00"
                          end |};
            type := if Qgtb (typeRoll rnd) 0.6 then BIRD else CACTUS |}]
      = obs ++ [o]
      /\ x o = CANVAS_WIDTH
      /\ Invariant.obstacleShape o
      /\ (type o = BIRD <-> Qgtb (typeRoll rnd) 0.6 = true)).
  { eexists. split; [reflexivity|]. split; [reflexivity|].
    unfold Invariant.obstacleShape.
    destruct (Qgtb (typeRoll rnd) 0.6); cbn;
      repeat split; congruence. }
  destruct Hnew as (o & Heq & Hx & Hshape & Htype).
  destruct obs as [|o0 rest] using rev_ind.
  - right. exists o. cbn [List.length Nat.sub nth_error].
    repeat split; try assumption; try apply Htype.
    intros [|] ? H; discriminate H.
  - clear IHrest.
    rewrite length_app, Nat.add_sub. cbn [List.length].
    rewrite nth_error_app2, Nat.sub_diag by lia. cbn [nth_error].
    destruct (Qgtb (CANVAS_WIDTH - x o0) (250 + speed * 10)) eqn:Hgap;
      [|now left].
    right. exists o.
    repeat split; try assumption; try apply Htype.
    intros init lastObs Hsplit. apply app_inj_tail in Hsplit.
    destruct Hsplit as [_ <-]. now apply Qltb_lt in Hgap.
Qed.

(** [spawnObstacle] keeps the field. *)
Lemma spawnObstacle_field (speed : Q) (rnd : Random)
    (obs : list Obstacle) :
  Invariant.speedOk speed ->
  Forall Invariant.obstacleShape obs ->
  Forall Invariant.inField obs ->
  StronglySorted Invariant.spaced obs ->
  Forall Invariant.obstacleShape (spawnObstacle speed rnd obs)
  /\ Forall Invariant.inField (spawnObstacle speed rnd obs)
  /\ StronglySorted Invariant.spaced (spawnObstacle speed rnd obs).
Proof.
  intros Hspeed Hshape Hin Hsorted.
  destruct (spawnObstacle_cases speed rnd obs)
    as [-> | (o & -> & Hx & Ho & _ & _ & Hgap)]; [auto|].
  apply speedOk_bounds in Hspeed.
  destruct (obstacleShape_width o Ho) as [Hw0 Hw40].
  split; [|split].
  - apply Forall_app. split; [exact Hshape | now repeat constructor].
  - apply Forall_app. split; [exact Hin|].
    repeat constructor; rewrite Hx; unfold CANVAS_WIDTH; lra.
  - apply StronglySorted_snoc; [exact Hsorted|].
    destruct obs as [|lastObs init _] using rev_ind; [constructor|].
    specialize (Hgap init lastObs eq_refl).
    apply StronglySorted_before_last in Hsorted.
    unfold Invariant.spaced in *. rewrite Hx.
    unfold CANVAS_WIDTH in *.
    apply Forall_app. split.
    + rewrite Forall_forall in *. intros b Hb.
      specialize (Hsorted b Hb). lra.
    + repeat constructor. lra.
Qed.

(** The obstacles the pass keeps are a field again. *)
Lemma moved_field (speed : Q) (obs : list Obstacle) :
  Invariant.speedOk speed ->
  Forall Invariant.obstacleShape obs ->
  Forall Invariant.inField obs ->
  StronglySorted Invariant.spaced obs ->
  Forall Invariant.obstacleShape
    (filter Spec.live (map (moveObstacle speed) obs))
  /\ Forall Invariant.inField
       (filter Spec.live (map (moveObstacle speed) obs))
  /\ StronglySorted Invariant.spaced
       (filter Spec.live (map (moveObstacle speed) obs)).
Proof.
  intros Hspeed Hshape Hin Hsorted.
  apply speedOk_bounds in Hspeed.
  split; [|split].
  - rewrite Forall_forall in *. intros o Ho.
    apply filter_In in Ho. destruct Ho as [Ho _].
    apply in_map_iff in Ho. destruct Ho as (a & <- & Ha).
    apply moveObstacle_shape. now apply Hshape.
  - rewrite Forall_forall in *. intros o Ho.
    apply filter_In in Ho. destruct Ho as [Ho Hlive].
    apply in_map_iff in Ho. destruct Ho as (a & <- & Ha).
    unfold Spec.live in Hlive. apply negb_true_iff, Qltb_ge in Hlive.
    destruct (Hin a Ha) as [_ Hright].
    split; [exact Hlive|]. cbn. lra.
  - apply StronglySorted_filter.
    induction Hsorted as [|a l Hl IH Ha]; cbn; [constructor|].
    inversion Hshape; inversion Hin; subst.
    constructor; [now apply IH|].
    rewrite Forall_forall in *. intros b Hb.
    apply in_map_iff in Hb. destruct Hb as (b0 & <- & Hb0).
    apply moveObstacle_spaced. now apply Ha.
Qed.

(** ** What every reachable state satisfies *)

Lemma playerShape_initial : Invariant.playerShape initialPlayer.
Proof.
  unfold Invariant.playerShape. cbn.
  repeat split; auto. discriminate.
Qed.

Lemma playerShape_playerControl (vState : VisionState) (p : Player) :
  Invariant.playerShape p ->
  Invariant.playerShape (playerControl vState p).
Proof.
  intros (Hx & Hw & Hh & Hd).
  unfold playerControl, jump, duck, standUp, Invariant.playerShape.
  destruct (GestureType_eqb (gesture vState) OPEN_PALM && negb (isJumping p));
    destruct (GestureType_eqb (gesture vState) CLOSED_FIST);
    cbn; try destruct (isDucking p) eqn:Hducking; cbn;
    repeat split; auto; try discriminate;
    intros; apply Hd; congruence.
Qed.

Lemma playerShape_gravity (p : Player) :
  Invariant.playerShape p -> Invariant.playerShape (gravity p).
Proof.
  intros (Hx & Hw & Hh & Hd). unfold gravity, Invariant.playerShape.
  destruct (Qltb (y p) (GROUND_Y - height p) || Qltb (vy p) 0); cbn;
    repeat split; auto.
Qed.

Lemma field_initial : Invariant.field initialGame.
Proof.
  unfold Invariant.field. cbn.
  split; [exact playerShape_initial|]. split; [now left|].
  repeat split; constructor.
Qed.

Lemma field_processVision (c : Component) (video : option VisionState) :
  Invariant.field (gameRef c) ->
  Invariant.field (gameRef (processVision c video)).
Proof.
  intro H. destruct video as [v|]; [|exact H].
  cbn [processVision]. unfold handleInputs.
  destruct (gameState c); cbn [gameRef]; auto.
  - destruct H as (Hp & _ & Hs & Hi & Hsorted).
    unfold Invariant.field. cbn [player currentSpeed obstacles].
    split; [now apply playerShape_playerControl|].
    split; [destruct (isTurbo v); [now right | now left]|].
    auto.
  - destruct (GestureType_eqb (gesture v) THUMBS_UP); cbn [resetGame gameRef];
      [exact field_initial | exact H].
Qed.

Lemma field_updatePhysics (c : Component) (rnd : Random) :
  Invariant.field (gameRef c) ->
  Invariant.field (gameRef (updatePhysics c rnd)).
Proof.
  intros (Hp & Hspeed & Hs & Hi & Hsorted).
  unfold Invariant.field.
  cbn [updatePhysics gameRef player currentSpeed obstacles].
  rewrite moveAndCollide_kept.
  split; [now apply playerShape_gravity|]. split; [exact Hspeed|].
  destruct (spawnObstacle_field (currentSpeed (gameRef c)) rnd
              (obstacles (gameRef c)) Hspeed Hs Hi Hsorted)
    as (Hs' & Hi' & Hsorted').
  now apply moved_field.
Qed.

Lemma commentaryArrives_gameRef (c : Component) (i : nat)
    (o : Gemini.Outcome) :
  gameRef (commentaryArrives c i o) = gameRef c
  /\ scoreState (commentaryArrives c i o) = scoreState c.
Proof.
  unfold commentaryArrives. now destruct (nth_error (inFlight c) i).
Qed.

Lemma reachable_field (c : Component) :
  reachable c -> Invariant.field (gameRef c).
Proof.
  induction 1 as [|c e Hc IH]; [exact field_initial|].
  destruct e as [video rnd | i o]; cbn [step].
  - unfold tick.
    destruct (negb (GameState_eqb (gameState c) PLAYING)).
    + now apply field_processVision.
    + now apply field_updatePhysics, field_processVision.
  - now rewrite (proj1 (commentaryArrives_gameRef c i o)).
Qed.

(** The pass shows the score it ends with, if it started with the score
    shown. *)
Lemma moveAndCollide_shown (p : Player) (speed : Q) (score0 : Z)
    (obs : list Obstacle) :
  passShown (moveAndCollide p speed obs score0 score0)
  = passScore (moveAndCollide p speed obs score0 score0).
Proof.
  unfold moveAndCollide.
  induction obs as [|o rest IH]; [reflexivity|].
  cbn [fold_right]. unfold visit at 1 3.
  destruct (offScreen (moveObstacle speed o)),
           (collides p (moveObstacle speed o));
    cbn [passShown passScore]; congruence.
Qed.

Lemma scoreOk_step (c : Component) (e : Event) :
  Invariant.scoreOk c -> Invariant.scoreOk (step c e).
Proof.
  intros [Hshown [n Hn]]. unfold Invariant.scoreOk.
  destruct e as [video rnd | i o]; cbn [step].
  - assert (H1 : Invariant.scoreOk (processVision c video)).
    { destruct video as [v|]; cbn [processVision];
        [|split; [exact Hshown | now exists n]].
      unfold handleInputs, Invariant.scoreOk.
      destruct (gameState c); cbn;
        try (split; [exact Hshown | now exists n]).
      destruct (GestureType_eqb (gesture v) THUMBS_UP); cbn;
        [split; [reflexivity | now exists 0%nat]
        | split; [exact Hshown | now exists n]]. }
    unfold tick.
    destruct (negb (GameState_eqb (gameState c) PLAYING)); [exact H1|].
    destruct H1 as [Hshown1 [n1 Hn1]].
    cbn [updatePhysics gameRef scoreState score].
    rewrite Hshown1. split; [apply moveAndCollide_shown|].
    rewrite moveAndCollide_score, Hn1.
    match goal with
    | |- context [Z.of_nat (List.length ?l)] =>
        exists (n1 + List.length l)%nat
    end.
    lia.
  - destruct (commentaryArrives_gameRef c i o) as [-> ->].
    split; [exact Hshown | now exists n].
Qed.

Lemma reachable_scoreOk (c : Component) :
  reachable c -> Invariant.scoreOk c.
Proof.
  induction 1 as [|c e Hc IH]; [|now apply scoreOk_step].
  split; [reflexivity | now exists 0%nat].
Qed.

(** In every reachable state the player stands in its column, x = 50 and
    width 40, with the duck height or the normal height, and with the duck
    height whenever it is ducking. *)
Theorem reachable_player_shape (c : Component) (reach : reachable c) :
  x (player (gameRef c)) = 50
  /\ width (player (gameRef c)) = 40
  /\ (height (player (gameRef c)) = DUCK_HEIGHT
      \/ height (player (gameRef c)) = NORMAL_HEIGHT)
  /\ (isDucking (player (gameRef c)) = true ->
      height (player (gameRef c)) = DUCK_HEIGHT).
Proof. exact (proj1 (reachable_field c reach)). Qed.

Lemma reachable_player_shape_witness :
  reachable (run initialComponent Scenario.duckRelease)
  /\ x (player (gameRef (run initialComponent Scenario.duckRelease))) = 50.
Proof.
  assert (H : reachable (run initialComponent Scenario.duckRelease))
    by (apply reachable_run; constructor).
  split; [exact H|].
  apply (reachable_player_shape
           (run initialComponent Scenario.duckRelease) H).
Defined.

(** In every reachable state the obstacles are the rectangles of their
    type, none is past the left edge or beyond the right edge, each is more
    than 310 to the right of the ones before it in the sequence, and the
    scroll speed is the base speed or the turbo speed. *)
Theorem reachable_obstacle_field (c : Component) (reach : reachable c) :
  Forall Invariant.obstacleShape (obstacles (gameRef c))
  /\ Forall Invariant.inField (obstacles (gameRef c))
  /\ StronglySorted Invariant.spaced (obstacles (gameRef c))
  /\ Invariant.speedOk (currentSpeed (gameRef c)).
Proof.
  destruct (reachable_field c reach) as (_ & Hspeed & Hs & Hi & Hsorted).
  auto.
Qed.

Lemma reachable_obstacle_field_witness :
  reachable (run initialComponent Scenario.firstSession)
  /\ StronglySorted Invariant.spaced
       (obstacles (gameRef (run initialComponent Scenario.firstSession))).
Proof.
  assert (H : reachable (run initialComponent Scenario.firstSession))
    by (apply reachable_run; constructor).
  split; [exact H|].
  apply (reachable_obstacle_field
           (run initialComponent Scenario.firstSession) H).
Defined.

(** In every reachable state the score shown is the score of the game, and
    it is a non-negative multiple of 10. *)
Theorem reachable_score_shown (c : Component) (reach : reachable c) :
  scoreState c = score (gameRef c)
  /\ (0 <= score (gameRef c))%Z
  /\ exists n : nat, score (gameRef c) = (10 * Z.of_nat n)%Z.
Proof.
  destruct (reachable_scoreOk c reach) as [Hshown [n Hn]].
  split; [exact Hshown|]. split; [lia | now exists n].
Qed.

Lemma reachable_score_shown_witness :
  reachable
    (run initialComponent
       (Scenario.firstSession ++ Scenario.secondSession))
  /\ scoreState
       (run initialComponent
          (Scenario.firstSession ++ Scenario.secondSession))
     = score
         (gameRef
            (run initialComponent
               (Scenario.firstSession ++ Scenario.secondSession))).
Proof.
  assert (H : reachable
                (run initialComponent
                   (Scenario.firstSession ++ Scenario.secondSession)))
    by (apply reachable_run; constructor).
  split; [exact H|].
  apply (reachable_score_shown
           (run initialComponent
              (Scenario.firstSession ++ Scenario.secondSession)) H).
Defined.

(** ** Collisions in a reachable field *)

(** The AABB test, as four strict inequalities. *)
Lemma collides_iff (p obs : Entity) :
  collides p obs = true
  <-> x p < x obs + width obs /\ x obs < x p + width p
      /\ y p < y obs + height obs /\ y obs < y p + height p.
Proof.
  unfold collides, Qgtb. rewrite !andb_true_iff, !Qltb_lt. tauto.
Qed.

(** A pass that removes nothing keeps the score and the score shown, and
    calls [handleGameOver] with that score once for each obstacle that
    overlaps the player. *)
Lemma moveAndCollide_no_removal (p : Player) (speed : Q)
    (score0 shown0 : Z) (obs : list Obstacle) :
  Forall (fun o => offScreen (moveObstacle speed o) = false) obs ->
  passScore (moveAndCollide p speed obs score0 shown0) = score0
  /\ passShown (moveAndCollide p speed obs score0 shown0) = shown0
  /\ gameOvers (moveAndCollide p speed obs score0 shown0)
     = repeat score0
         (List.length
            (filter (fun o : Obstacle => collides p o)
               (map (moveObstacle speed) obs))).
Proof.
  unfold moveAndCollide.
  induction 1 as [|o rest Ho _ IH]; [now cbn|].
  destruct IH as (Hscore & Hshown & Hovers).
  cbn [fold_right map filter].
  assert (Hvisit :
    passShown
      (visit p speed o
         (fold_right (visit p speed)
            {| kept := []; passScore := score0; passShown := shown0;
               gameOvers := [] |} rest))
    = shown0).
  { unfold visit. rewrite Ho.
    now destruct (collides p (moveObstacle speed o)). }
  rewrite Hvisit, visit_gameOvers, !visit_score, Ho, Hscore, Hovers.
  rewrite Z.add_0_r.
  split; [reflexivity|]. split; [reflexivity|].
  destruct (collides p (moveObstacle speed o)); cbn [List.length repeat].
  - symmetry. apply repeat_cons.
  - apply app_nil_r.
Qed.

(** In a field, at most one moved obstacle overlaps the player. *)
Lemma collisions_at_most_one (p : Player) (speed : Q)
    (obs : list Obstacle) :
  x p = 50 -> width p = 40 ->
  Forall Invariant.obstacleShape obs ->
  StronglySorted Invariant.spaced obs ->
  (List.length
     (filter (fun o : Obstacle => collides p o)
        (map (moveObstacle speed) obs)) <= 1)%nat.
Proof.
  intros Hx Hw Hshape Hsorted.
  induction Hsorted as [|a rest Hrest IH Ha]; [cbn; lia|].
  inversion Hshape as [|? ? Hsa Hsrest]; subst.
  cbn [map filter].
  destruct (collides p (moveObstacle speed a)) eqn:Hc; [|now apply IH].
  apply collides_iff in Hc. destruct Hc as (Hleft & _).
  destruct (obstacleShape_width a Hsa) as [_ Hwa].
  cbn in Hleft. rewrite Hx in Hleft.
  replace (filter (fun o : Obstacle => collides p o)
             (map (moveObstacle speed) rest)) with (@nil Obstacle);
    [cbn; lia|].
  symmetry. clear IH Hrest Hsrest Hshape.
  induction Ha as [|b rest Hb _ IHb]; [reflexivity|].
  cbn [map filter].
  destruct (collides p (moveObstacle speed b)) eqn:Hcb; [|exact IHb].
  apply collides_iff in Hcb. destruct Hcb as (_ & Hright & _).
  unfold Invariant.spaced in Hb. cbn in Hright.
  rewrite Hx, Hw in Hright. exfalso. lra.
Qed.

(** When a reachable game ends, exactly one commentary request is issued,
    for the score the game ends with, which is the score shown; no obstacle
    leaves the field on that frame. *)
Theorem game_over_single_request (c : Component)
    (video : option VisionState) (rnd : Random)
    (reach : reachable c)
    (playing : gameState c = PLAYING)
    (over : gameState (tick c video rnd) = GAME_OVER) :
  inFlight (tick c video rnd)
  = inFlight c ++ [score (gameRef (tick c video rnd))]
  /\ score (gameRef (tick c video rnd)) = score (gameRef c)
  /\ scoreState (tick c video rnd) = score (gameRef (tick c video rnd))
  /\ obstacles (gameRef (tick c video rnd))
     = Spec.movedObstacles (gameRef (processVision c video)) rnd.
Proof.
  rewrite (tick_playing _ _ _ playing) in *.
  destruct (processVision_playing c video playing)
    as (Hphase1 & Hscore1 & _ & Hflight1).
  assert (Hshown1 : scoreState (processVision c video) = score (gameRef c)).
  { destruct (reachable_scoreOk c reach) as [Hs _]. rewrite <- Hs.
    destruct video as [v|]; cbn [processVision]; [|reflexivity].
    unfold handleInputs. now rewrite playing. }
  pose proof (field_processVision c video (reachable_field c reach))
    as (Hplayer & Hspeed & Hshape & Hin & Hsorted).
  set (c1 := processVision c video) in *.
  destruct (spawnObstacle_field (currentSpeed (gameRef c1)) rnd
              (obstacles (gameRef c1)) Hspeed Hshape Hin Hsorted)
    as (Hshape' & Hin' & Hsorted').
  apply playerShape_gravity in Hplayer.
  destruct Hplayer as (Hx & Hw & _).
  pose proof (speedOk_bounds _ Hspeed) as [Hs6 Hs11].
  apply (updatePhysics_game_over c1 rnd Hphase1) in over.
  destruct over as (o & Ho & Hc).
  unfold Spec.movedObstacles in Ho.
  apply in_map_iff in Ho. destruct Ho as (a & <- & Ha).
  pose proof Hc as Hhit.
  apply collides_iff in Hc. destruct Hc as (Hleft & Hright & _).
  cbn in Hleft, Hright. rewrite Hx in Hleft, Hright. rewrite Hw in Hright.
  assert (Hkeep :
    Forall (fun o' => offScreen
                        (moveObstacle (currentSpeed (gameRef c1)) o')
                      = false)
      (spawnObstacle (currentSpeed (gameRef c1)) rnd
         (obstacles (gameRef c1)))).
  { rewrite Forall_forall in *. intros a' Ha'.
    destruct (offScreen (moveObstacle (currentSpeed (gameRef c1)) a'))
      eqn:Hoff; [|reflexivity].
    exfalso. apply Qltb_lt in Hoff. cbn in Hoff.
    destruct (obstacleShape_width a (Hshape' a Ha)) as [Hwa0 Hwa40].
    destruct (obstacleShape_width a' (Hshape' a' Ha')) as [Hwb0 Hwb40].
    destruct (Hin' a' Ha') as [Hfield _].
    destruct (StronglySorted_cases _ _ _ a a' Hsorted' Ha Ha')
      as [<- | [Hs | Hs]]; unfold Invariant.spaced in *; lra. }
  destruct (moveAndCollide_no_removal
              (gravity (player (gameRef c1))) (currentSpeed (gameRef c1))
              (score (gameRef c1)) (scoreState c1) _ Hkeep)
    as (Hscore & Hshown & Hovers).
  pose proof (collisions_at_most_one
                (gravity (player (gameRef c1)))
                (currentSpeed (gameRef c1)) _ Hx Hw Hshape' Hsorted')
    as Hone.
  assert (Hsome :
    In (moveObstacle (currentSpeed (gameRef c1)) a)
      (filter (fun o : Obstacle =>
                 collides (gravity (player (gameRef c1))) o)
         (map (moveObstacle (currentSpeed (gameRef c1)))
            (spawnObstacle (currentSpeed (gameRef c1)) rnd
               (obstacles (gameRef c1)))))).
  { apply filter_In. split; [now apply in_map | exact Hhit]. }
  destruct (filter _ _) as [|o1 [|o2 rest]] in Hone, Hovers, Hsome;
    [now elim Hsome | | cbn in Hone; lia].
  cbn [updatePhysics inFlight gameRef score scoreState obstacles].
  rewrite Hovers, Hscore, Hshown, Hflight1, moveAndCollide_kept.
  cbn [List.length repeat].
  repeat split; try congruence.
  unfold Spec.movedObstacles, Spec.live.
  clear - Hkeep. induction Hkeep as [|a' rest Ha' _ IH]; [reflexivity|].
  cbn [map filter]. rewrite Ha'. cbn [negb]. now rewrite IH.
Qed.

Lemma beforeCrash_playing :
  gameState (run initialComponent Scenario.beforeCrash) = PLAYING.
Proof. vm_compute. reflexivity. Qed.

Lemma beforeCrash_then_over :
  gameState
    (tick (run initialComponent Scenario.beforeCrash)
       (Some (Scenario.reading 1 NONE)) Scenario.cactus) = GAME_OVER.
Proof. vm_compute. reflexivity. Qed.

Lemma game_over_single_request_witness :
  reachable (run initialComponent Scenario.beforeCrash)
  /\ gameState (run initialComponent Scenario.beforeCrash) = PLAYING
  /\ gameState
       (tick (run initialComponent Scenario.beforeCrash)
          (Some (Scenario.reading 1 NONE)) Scenario.cactus) = GAME_OVER
  /\ inFlight
       (tick (run initialComponent Scenario.beforeCrash)
          (Some (Scenario.reading 1 NONE)) Scenario.cactus)
     = inFlight (run initialComponent Scenario.beforeCrash)
       ++ [score
             (gameRef
                (tick (run initialComponent Scenario.beforeCrash)
                   (Some (Scenario.reading 1 NONE)) Scenario.cactus))].
Proof.
  assert (H : reachable (run initialComponent Scenario.beforeCrash))
    by (apply reachable_run; constructor).
  split; [exact H|]. split; [exact beforeCrash_playing|].
  split; [exact beforeCrash_then_over|].
  apply (game_over_single_request
           (run initialComponent Scenario.beforeCrash)
           (Some (Scenario.reading 1 NONE)) Scenario.cactus H
           beforeCrash_playing beforeCrash_then_over).
Defined.

(** A player that a frame leaves on the ground collides exactly with the
    cactuses it overlaps horizontally: never with a bird, whose lower edge
    is the upper edge of a standing player, and ducking makes no
    difference. *)
Theorem grounded_collision_iff (c : Component)
    (video : option VisionState) (rnd : Random) (obs : Obstacle)
    (reach : reachable c)
    (playing : gameState c = PLAYING)
    (landed : isJumping (player (gameRef (tick c video rnd))) = false)
    (moved : In obs
               (Spec.movedObstacles (gameRef (processVision c video)) rnd)) :
  collides (player (gameRef (tick c video rnd))) obs = true
  <-> type obs = CACTUS
      /\ Invariant.overlapsX (player (gameRef (tick c video rnd))) obs.
Proof.
  rewrite (tick_playing _ _ _ playing) in *.
  pose proof (field_processVision c video (reachable_field c reach))
    as (Hplayer & Hspeed & Hshape & Hin & Hsorted).
  set (c1 := processVision c video) in *.
  destruct (spawnObstacle_field (currentSpeed (gameRef c1)) rnd
              (obstacles (gameRef c1)) Hspeed Hshape Hin Hsorted)
    as (Hshape' & _ & _).
  unfold Spec.movedObstacles in moved.
  apply in_map_iff in moved. destruct moved as (a & <- & Ha).
  rewrite Forall_forall in Hshape'. specialize (Hshape' a Ha).
  destruct Hplayer as (_ & _ & Hh & _).
  cbn [updatePhysics gameRef player] in *.
  unfold gravity in *.
  destruct (Qltb (y (player (gameRef c1)))
              (GROUND_Y - height (player (gameRef c1)))
            || Qltb (vy (player (gameRef c1))) 0);
    [discriminate landed|].
  rewrite collides_iff. unfold Invariant.overlapsX, Invariant.obstacleShape
    in *.
  cbn. destruct (type a); destruct Hshape' as (-> & -> & ->);
    destruct Hh as [-> | ->];
    unfold GROUND_Y, DUCK_HEIGHT, NORMAL_HEIGHT;
    (split;
     [intros (H1 & H2 & H3 & H4);
      first [split; [reflexivity | split; assumption] | exfalso; lra]
     |intros (Ht & H1 & H2);
      first [discriminate Ht | repeat split; try assumption; lra]]).
Qed.

Lemma firstSession_last_landed :
  isJumping
    (player (gameRef
       (tick (run initialComponent Scenario.beforeCrash)
          (Some (Scenario.reading 1 NONE)) Scenario.cactus))) = false.
Proof. vm_compute. reflexivity. Qed.

Lemma grounded_collision_iff_witness :
  reachable (run initialComponent Scenario.beforeCrash)
  /\ gameState (run initialComponent Scenario.beforeCrash) = PLAYING
  /\ (collides
        (player (gameRef
           (tick (run initialComponent Scenario.beforeCrash)
              (Some (Scenario.reading 1 NONE)) Scenario.cactus)))
        (Scenario.cactusAt 86) = true
      <-> type (Scenario.cactusAt 86) = CACTUS
          /\ Invariant.overlapsX
               (player (gameRef
                  (tick (run initialComponent Scenario.beforeCrash)
                     (Some (Scenario.reading 1 NONE)) Scenario.cactus)))
               (Scenario.cactusAt 86)).
Proof.
  assert (H : reachable (run initialComponent Scenario.beforeCrash))
    by (apply reachable_run; constructor).
  split; [exact H|]. split; [exact beforeCrash_playing|].
  apply (grounded_collision_iff
           (run initialComponent Scenario.beforeCrash)
           (Some (Scenario.reading 1 NONE)) Scenario.cactus
           (Scenario.cactusAt 86) H beforeCrash_playing
           firstSession_last_landed).
  vm_compute. left. reflexivity.
Defined.

(** ** The height of the player *)

(** Jumping out of a duck clears the ducking flag and leaves the height as
    it is: the player takes off, and goes on, with the duck height. *)
Theorem jump_from_duck_keeps_height (c : Component) (vState : VisionState)
    (rnd : Random)
    (reach : reachable c)
    (playing : gameState c = PLAYING)
    (ducking : isDucking (player (gameRef c)) = true)
    (onGround : isJumping (player (gameRef c)) = false)
    (palm : gesture vState = OPEN_PALM) :
  isJumping (player (gameRef (tick c (Some vState) rnd))) = true
  /\ isDucking (player (gameRef (tick c (Some vState) rnd))) = false
  /\ height (player (gameRef (tick c (Some vState) rnd))) = DUCK_HEIGHT
  /\ vy (player (gameRef (tick c (Some vState) rnd)))
     = JUMP_FORCE + GRAVITY.
Proof.
  destruct (reachable_field c reach) as ((_ & _ & _ & Hd) & _).
  specialize (Hd ducking).
  rewrite (tick_playing _ _ _ playing).
  cbn [processVision updatePhysics gameRef player].
  unfold handleInputs. rewrite playing. cbn [gameRef player].
  unfold playerControl, jump, standUp. rewrite palm, onGround.
  cbn [GestureType_eqb negb andb isDucking].
  unfold gravity. cbn [vy].
  replace (Qltb JUMP_FORCE 0) with true by reflexivity.
  rewrite orb_true_r. cbn. auto.
Qed.

Lemma ducked_playing :
  gameState (run initialComponent Scenario.ducked) = PLAYING.
Proof. reflexivity. Qed.

Lemma jump_from_duck_keeps_height_witness :
  reachable (run initialComponent Scenario.ducked)
  /\ gameState (run initialComponent Scenario.ducked) = PLAYING
  /\ isDucking (player (gameRef (run initialComponent Scenario.ducked)))
     = true
  /\ isJumping (player (gameRef (run initialComponent Scenario.ducked)))
     = false
  /\ height
       (player (gameRef
          (tick (run initialComponent Scenario.ducked)
             (Some (Scenario.reading 1 OPEN_PALM)) Scenario.quiet)))
     = DUCK_HEIGHT.
Proof.
  assert (H : reachable (run initialComponent Scenario.ducked))
    by (apply reachable_run; constructor).
  split; [exact H|]. split; [reflexivity|].
  split; [reflexivity|]. split; [reflexivity|].
  apply (jump_from_duck_keeps_height (run initialComponent Scenario.ducked)
           (Scenario.reading 1 OPEN_PALM) Scenario.quiet H ducked_playing
           eq_refl eq_refl eq_refl).
Defined.

(** A player that is not ducking keeps its height, and stays not ducking,
    through every PLAYING frame that does not read a fist: the height
    changes only by ducking and by standing up from a duck. *)
Theorem not_ducking_keeps_height (c : Component)
    (video : option VisionState) (rnd : Random)
    (playing : gameState c = PLAYING)
    (upright : isDucking (player (gameRef c)) = false)
    (noFist : forall vState,
                video = Some vState -> gesture vState <> CLOSED_FIST) :
  height (player (gameRef (tick c video rnd)))
  = height (player (gameRef c))
  /\ isDucking (player (gameRef (tick c video rnd))) = false.
Proof.
  rewrite (tick_playing _ _ _ playing).
  cbn [updatePhysics gameRef player].
  assert (H : height (player (gameRef (processVision c video)))
              = height (player (gameRef c))
              /\ isDucking (player (gameRef (processVision c video)))
                 = false).
  { destruct video as [v|]; cbn [processVision]; [|now split].
    specialize (noFist v eq_refl).
    unfold handleInputs. rewrite playing. cbn [gameRef player].
    unfold playerControl, jump, standUp.
    destruct (GestureType_eqb (gesture v) CLOSED_FIST) eqn:Hf;
      [now apply GestureType_eqb_eq in Hf|].
    destruct (GestureType_eqb (gesture v) OPEN_PALM
              && negb (isJumping (player (gameRef c))));
      cbn [isDucking]; rewrite ?upright; now split. }
  destruct H as [Hh Hd]. unfold gravity.
  destruct (Qltb _ _ || Qltb _ _); cbn; now split.
Qed.

Lemma not_ducking_keeps_height_witness :
  gameState (run initialComponent [Scenario.show OPEN_PALM]) = PLAYING
  /\ isDucking
       (player (gameRef (run initialComponent [Scenario.show OPEN_PALM])))
     = false
  /\ height
       (player (gameRef
          (tick (run initialComponent [Scenario.show OPEN_PALM])
             (Some (Scenario.reading 1 OPEN_PALM)) Scenario.quiet)))
     = height
         (player (gameRef (run initialComponent [Scenario.show OPEN_PALM]))).
Proof.
  split; [reflexivity|]. split; [reflexivity|].
  apply (not_ducking_keeps_height
           (run initialComponent [Scenario.show OPEN_PALM])
           (Some (Scenario.reading 1 OPEN_PALM)) Scenario.quiet
           initial_then_palm_playing eq_refl).
  intros v [= <-]. discriminate.
Defined.

(** ** More on spawning *)

(** [spawnObstacle] returns the obstacles it was given, followed by at most
    one new obstacle; the new one stands at the right edge with the
    rectangle of its type, a bird exactly when the second draw is above
    0.6.  Nothing is added when the first draw is 0.02 or more, nor when
    the last obstacle is within 250 + 10 * speed of the right edge,
    whatever the draws. *)
Theorem spawnObstacle_adds_at_most_one (speed : Q) (rnd : Random)
    (obs : list Obstacle) :
  (spawnObstacle speed rnd obs = obs
   \/ exists o,
        spawnObstacle speed rnd obs = obs ++ [o]
        /\ x o = CANVAS_WIDTH
        /\ Invariant.obstacleShape o
        /\ spawnRoll rnd < 0.02
        /\ (type o = BIRD <-> 0.6 < typeRoll rnd))
  /\ (0.02 <= spawnRoll rnd -> spawnObstacle speed rnd obs = obs)
  /\ (forall init lastObs,
        obs = init ++ [lastObs] ->
        CANVAS_WIDTH - x lastObs <= 250 + speed * 10 ->
        spawnObstacle speed rnd obs = obs).
Proof.
  destruct (spawnObstacle_cases speed rnd obs)
    as [Hsame | (o & Heq & Hx & Hshape & Hroll & Htype & Hgap)].
  - split; [now left|]. split; intros; exact Hsame.
  - apply Qltb_lt in Hroll. split; [|split].
    + right. exists o. repeat split; try assumption.
      * intro Hb. apply Htype in Hb. now apply Qltb_lt in Hb.
      * intro Hb. apply Htype. now apply Qltb_lt.
    + intro H. exfalso. lra.
    + intros init lastObs Hsplit Hnear.
      specialize (Hgap init lastObs Hsplit). exfalso. lra.
Qed.

Lemma spawnObstacle_adds_at_most_one_witness :
  CANVAS_WIDTH - x (Scenario.cactusAt 500) <= 250 + BASE_SPEED * 10
  /\ spawnObstacle BASE_SPEED Scenario.cactus [Scenario.cactusAt 500]
     = [Scenario.cactusAt 500].
Proof.
  assert (H : CANVAS_WIDTH - x (Scenario.cactusAt 500)
              <= 250 + BASE_SPEED * 10)
    by (vm_compute; discriminate).
  split; [exact H|].
  destruct (spawnObstacle_adds_at_most_one BASE_SPEED Scenario.cactus
              [Scenario.cactusAt 500]) as (_ & _ & Hgate).
  exact (Hgate [] (Scenario.cactusAt 500) eq_refl H).
Defined.

(** ** Witnesses of two lemmas above *)

Lemma afterRestart_session :
  Spec.session
    (run initialComponent
       (Scenario.firstSession ++ [Scenario.look THUMBS_UP]))
    Scenario.afterRestart = true.
Proof. vm_compute. reflexivity. Qed.

Lemma session_score_witness :
  Spec.session
    (run initialComponent
       (Scenario.firstSession ++ [Scenario.look THUMBS_UP]))
    Scenario.afterRestart = true
  /\ score
       (gameRef
          (run
             (run initialComponent
                (Scenario.firstSession ++ [Scenario.look THUMBS_UP]))
             Scenario.afterRestart))
     = (score
          (gameRef
             (run initialComponent
                (Scenario.firstSession ++ [Scenario.look THUMBS_UP])))
        + 10 * Z.of_nat
                 (Spec.removedAlong
                    (run initialComponent
                       (Scenario.firstSession ++ [Scenario.look THUMBS_UP]))
                    Scenario.afterRestart))%Z.
Proof.
  split; [exact afterRestart_session|].
  apply (session_score Scenario.afterRestart
           (run initialComponent
              (Scenario.firstSession ++ [Scenario.look THUMBS_UP]))
           afterRestart_session).
Defined.

Lemma frame_two_hands_witness :
  gameState (run initialComponent [Scenario.show OPEN_PALM]) = PLAYING
  /\ Forall (fun hand => (21 <= List.length hand)%nat)
       [Scenario.flatHand; Scenario.thumbHand]
  /\ (2 <= List.length [Scenario.flatHand; Scenario.thumbHand])%nat
  /\ exists c',
       frame (run initialComponent [Scenario.show OPEN_PALM])
         (Some (Some [Scenario.flatHand; Scenario.thumbHand]))
         Scenario.quiet = Some c'
       /\ currentSpeed (gameRef c') = BASE_SPEED * TURBO_SPEED_MULTIPLIER.
Proof.
  assert (H : Forall (fun hand => (21 <= List.length hand)%nat)
                [Scenario.flatHand; Scenario.thumbHand])
    by (repeat constructor; simpl; lia).
  split; [reflexivity|]. split; [exact H|]. split; [simpl; lia|].
  apply (frame_two_hands (run initialComponent [Scenario.show OPEN_PALM])
           [Scenario.flatHand; Scenario.thumbHand] Scenario.quiet
           initial_then_palm_playing H).
  simpl. lia.
Defined.

(** ** The size of the field *)

(** A reachable state never holds more than three obstacles: each is more
    than 310 to the right of the one before, the first has not left the
    field, and the last is not beyond the right edge. *)
Theorem reachable_at_most_three_obstacles (c : Component)
    (reach : reachable c) :
  (List.length (obstacles (gameRef c)) <= 3)%nat.
Proof.
  destruct (reachable_field c reach) as (_ & _ & Hshape & Hin & Hsorted).
  destruct (obstacles (gameRef c)) as [|a [|b [|k [|d rest]]]];
    cbn [List.length]; try lia.
  exfalso.
  inversion Hshape as [|? ? Hsa _]; subst.
  destruct (obstacleShape_width a Hsa) as [_ Hwa].
  inversion Hin as [|? ? [Ha _] Hin1]; subst.
  inversion Hin1 as [|? ? _ Hin2]; subst.
  inversion Hin2 as [|? ? _ Hin3]; subst.
  inversion Hin3 as [|? ? [_ Hd] _]; subst.
  apply StronglySorted_inv in Hsorted. destruct Hsorted as [Hs1 Hab].
  apply StronglySorted_inv in Hs1. destruct Hs1 as [Hs2 Hbk].
  apply StronglySorted_inv in Hs2. destruct Hs2 as [_ Hkd].
  inversion Hab as [|? ? Habx _]; subst.
  inversion Hbk as [|? ? Hbkx _]; subst.
  inversion Hkd as [|? ? Hkdx _]; subst.
  unfold Invariant.spaced, CANVAS_WIDTH in *. lra.
Qed.

Lemma reachable_at_most_three_obstacles_witness :
  reachable (run initialComponent Scenario.firstSession)
  /\ (List.length
        (obstacles (gameRef (run initialComponent Scenario.firstSession)))
      <= 3)%nat.
Proof.
  assert (H : reachable (run initialComponent Scenario.firstSession))
    by (apply reachable_run; constructor).
  split; [exact H|].
  apply (reachable_at_most_three_obstacles
           (run initialComponent Scenario.firstSession) H).
Defined.
